(** * Arabic shaping adapter (babeldoc/format/pdf/document_il/utils/rtl.py)

    A shallow embedding of [rtl.py]: the memoised [ArabicTextShaper.shape_text],
    the language-tag test [is_arabic_language_code] and the two adapters that
    write shaped text back into paragraph and composition objects.

    Python strings are lists of code points, Python values a small tagged
    union, exceptions and the module's effects (cache, log, stdout, attribute
    assignment, calls of the external libraries) an explicit state-and-error
    monad over a [world]. *)

From Stdlib Require Import ZArith NArith List Bool Lia String Ascii DecimalString.
Import ListNotations.

Local Open Scope N_scope.

(* ===================================================================== *)
(** ** Python data *)
(* ===================================================================== *)

(** A [str] is a sequence of Unicode code points. *)
Definition codepoint := N.
Definition text := list codepoint.

Definition text_of_string (s : string) : text :=
  map N_of_ascii (list_ascii_of_string s).

Fixpoint text_eqb (a b : text) : bool :=
  match a, b with
  | [], [] => true
  | x :: a', y :: b' => (x =? y) && text_eqb a' b'
  | _, _ => false
  end.

(** Exception classes that occur here.  [KeyboardInterrupt] and [SystemExit]
    derive from [BaseException] only, so an [except Exception] clause lets
    them through. *)
Inductive exc_class :=
| TypeError | AttributeError | ValueError | RuntimeError | MemoryError
| KeyboardInterrupt | SystemExit.

Inductive exn := Exn (cls : exc_class) (msg : string).

Definition is_Exception (e : exn) : bool :=
  match e with
  | Exn KeyboardInterrupt _ | Exn SystemExit _ => false
  | Exn _ _ => true
  end.

Inductive outcome (A : Type) :=
| Returned (a : A)
| Raised (e : exn).
Arguments Returned {A} a.
Arguments Raised {A} e.

(** An instance of some other class (a list, a dict, a tuple, a user
    class), seen through what the module does with it: identity (the
    default [==]), whether [hash()] accepts it, its truth value, what
    [str()] gives, and what iterating it yields - [None] when it cannot be
    iterated, otherwise its items, each a [str] or ([None]) something a
    [str] cannot be ordered against.  It has no [strip] method. *)
Record pyobject := {
  ob_id : N;
  ob_hashable : bool;
  ob_truthy : bool;
  ob_str : outcome text;
  ob_iter : option (list (option text))
}.

Inductive pyval :=
| PyNone
| PyBool (b : bool)
| PyInt (n : Z)
| PyStr (s : text)
| PyObject (o : pyobject).

(** [bool(v)], as used by [not v]. *)
Definition truthy (v : pyval) : bool :=
  match v with
  | PyNone => false
  | PyBool b => b
  | PyInt n => negb (n =? 0)%Z
  | PyStr s => match s with [] => false | _ => true end
  | PyObject o => ob_truthy o
  end.

(** [isinstance(v, str)] *)
Definition isinstance_str (v : pyval) : bool :=
  match v with PyStr _ => true | _ => false end.

(** [str()] of an [int] raises [ValueError] when the number has more than
    4300 digits (the interpreter's default limit for the conversion). *)
Definition int_max_str_digits : Z := 4300.

Definition exceeds_str_digits (n : Z) : bool :=
  (10 ^ int_max_str_digits <=? Z.abs n)%Z.

(** [str(v)] *)
Definition py_str (v : pyval) : outcome text :=
  match v with
  | PyNone => Returned (text_of_string "None")
  | PyBool true => Returned (text_of_string "True")
  | PyBool false => Returned (text_of_string "False")
  | PyInt n =>
      if exceeds_str_digits n
      then Raised (Exn ValueError "Exceeds the limit for integer string conversion")
      else Returned (text_of_string (NilZero.string_of_int (Z.to_int n)))
  | PyStr s => Returned s
  | PyObject o => ob_str o
  end.

(** [type(v)], for the log record. *)
Inductive pytype := NoneType | bool_t | int_t | str_t | object_t.

Definition py_type (v : pyval) : pytype :=
  match v with
  | PyNone => NoneType
  | PyBool _ => bool_t
  | PyInt _ => int_t
  | PyStr _ => str_t
  | PyObject _ => object_t
  end.

(** [hash(v)] succeeds. *)
Definition hashable (v : pyval) : bool :=
  match v with
  | PyObject o => ob_hashable o
  | _ => true
  end.

Definition int_of_bool (b : bool) : Z := if b then 1%Z else 0%Z.

(** [a == b].  [bool] is a subclass of [int]: [True == 1]. *)
Definition py_eq (a b : pyval) : bool :=
  match a, b with
  | PyNone, PyNone => true
  | PyBool x, PyBool y => Bool.eqb x y
  | PyBool x, PyInt n => (int_of_bool x =? n)%Z
  | PyInt n, PyBool y => (n =? int_of_bool y)%Z
  | PyInt n, PyInt m => (n =? m)%Z
  | PyStr s, PyStr t => text_eqb s t
  | PyObject o, PyObject p => ob_id o =? ob_id p
  | _, _ => false
  end.

(* ===================================================================== *)
(** ** str methods *)
(* ===================================================================== *)

Definition is_ascii (c : codepoint) : bool := c <? 128.

Definition ascii_lower (c : codepoint) : codepoint :=
  if (65 <=? c) && (c <=? 90) then c + 32 else c.

Fixpoint startswith (s p : text) {struct p} : bool :=
  match p with
  | [] => true
  | y :: p' =>
      match s with
      | [] => false
      | x :: s' => (x =? y) && startswith s' p'
      end
  end.

Definition endswith (s p : text) : bool := startswith (rev s) (rev p).

(** [any(lo <= c <= hi for c in s)] on a [str]. *)
Definition in_range (lo hi c : codepoint) : bool := (lo <=? c) && (c <=? hi).

Definition any_in_range (lo hi : codepoint) (s : text) : bool :=
  existsb (in_range lo hi) s.

(** The test on line 43 of [shape_text]. *)
Definition has_arabic_chars (s : text) : bool :=
  any_in_range 0x0600 0x06FF s || any_in_range 0xFB50 0xFDFF s.

(* ===================================================================== *)
(** ** Effects *)
(* ===================================================================== *)

(** The three library calls of the shaping pipeline:
    [unicodedata.normalize('NFKC', _)], [self.reshaper.reshape(_)] (with the
    configuration fixed in [_initialize]) and [get_display(_, base_dir='R')].
    Their code is outside the module; each may return or raise. *)
Inductive capability := Normalize | Reshape | GetDisplay.

Record capabilities := {
  normalize_NFKC : text -> outcome text;
  reshape : text -> outcome text;
  get_display_R : text -> outcome text
}.

Definition run_capability (ext : capabilities) (c : capability) : text -> outcome text :=
  match c with
  | Normalize => normalize_NFKC ext
  | Reshape => reshape ext
  | GetDisplay => get_display_R ext
  end.

(** Which object an attribute assignment targets. *)
Inductive target := ParagraphUnicode | CompositionUnicode.

Inductive event :=
| ExternalCall (c : capability) (arg : text)
    (* a library call was made *)
| WarnNonString (t : pytype)
    (* logger.warning("Non-string text passed to Arabic shaper: %s", type(text)) *)
| WarnShapingFailed (t : pyval) (e : exn)
    (* logger.warning("Arabic shaping failed for text: %s, error: %s", ...) *)
| WarnCompositionFailed (t : pyval) (e : exn)
    (* logger.warning("Failed to shape composition text: %s, error: %s", ...) *)
| PrintShaping (o : target) (original shaped : pyval)
    (* print(f"PARAGRAPH SHAPING: ..."), print(f"COMPOSITION SHAPING: ...") *)
| SetUnicode (o : target) (v : pyval).
    (* <object>.unicode = v *)

(** Modelled from the spec: the store behind [@lru_cache(maxsize=1024)]
    (ShapeCache: a bounded mapping from the input to the result, evicting the
    least recently used entry).  [entries] lists key and result, most recently
    used first; [hits] and [misses] are the counters of [cache_info()]. *)
Record lru := {
  entries : list (pyval * pyval);
  hits : nat;
  misses : nat
}.

(** The process state the module can touch: the cache of the singleton
    [_shaper] and everything emitted so far, newest event first. *)
Record world := {
  shape_cache : lru;
  trace : list event
}.

Definition init_world : world :=
  {| shape_cache := {| entries := []; hits := 0%nat; misses := 0%nat |}; trace := [] |}.

Definition M (A : Type) : Type := world -> outcome A * world.

Definition ret {A} (a : A) : M A := fun w => (Returned a, w).

Definition raise {A} (e : exn) : M A := fun w => (Raised e, w).

Definition bind {A B} (m : M A) (k : A -> M B) : M B :=
  fun w =>
    match m w with
    | (Returned a, w') => k a w'
    | (Raised e, w') => (Raised e, w')
    end.

Notation "x <- m ;; k" := (bind m (fun x => k))
  (at level 61, m at next level, right associativity).
Notation "m ;;; k" := (bind m (fun _ => k))
  (at level 61, right associativity).

Definition emit (e : event) : M unit :=
  fun w => (Returned tt, {| shape_cache := shape_cache w; trace := e :: trace w |}).

Definition lift {A} (o : outcome A) : M A := fun w => (o, w).

(** [try: body  except Exception as e: handler e] *)
Definition try_except {A} (body : M A) (handler : exn -> M A) : M A :=
  fun w =>
    match body w with
    | (Raised e, w') => if is_Exception e then handler e w' else (Raised e, w')
    | r => r
    end.

Definition call_external (ext : capabilities) (c : capability) (arg : text) : M text :=
  emit (ExternalCall c arg) ;;; lift (run_capability ext c arg).

(* ===================================================================== *)
(** ** ArabicTextShaper.shape_text *)
(* ===================================================================== *)

(** Lines 47-51: normalise, reshape, reorder. *)
Definition shaping_pipeline (ext : capabilities) (s : text) : M text :=
  normalized <- call_external ext Normalize s ;;
  reshaped <- call_external ext Reshape normalized ;;
  bidi_text <- call_external ext GetDisplay reshaped ;;
  ret bidi_text.

(** The function under the decorator (lines 31-59). *)
Definition shape_text_body (ext : capabilities) (txt : pyval) : M pyval :=
  if negb (truthy txt) then ret txt
  else
    match txt with
    | PyStr s =>
        try_except
          (if has_arabic_chars s
           then (bidi_text <- shaping_pipeline ext s ;; ret (PyStr bidi_text))
           else ret txt)
          (fun e => emit (WarnShapingFailed txt e) ;;; ret txt)
    | _ =>
        emit (WarnNonString (py_type txt)) ;;;
        match txt with
        | PyNone => ret (PyStr [])
        | _ => (s <- lift (py_str txt) ;; ret (PyStr s))
        end
    end.

(** *** The decorator *)

Fixpoint cache_find (k : pyval) (l : list (pyval * pyval)) : option (pyval * pyval) :=
  match l with
  | [] => None
  | (k', v) :: t => if py_eq k k' then Some (k', v) else cache_find k t
  end.

Fixpoint cache_remove (k : pyval) (l : list (pyval * pyval)) : list (pyval * pyval) :=
  match l with
  | [] => []
  | (k', v) :: t => if py_eq k k' then t else (k', v) :: cache_remove k t
  end.

Definition cache_get (k : pyval) (l : list (pyval * pyval)) : option pyval :=
  option_map snd (cache_find k l).

(** Store a new entry as most recent; when full, the oldest entry goes. *)
Definition cache_store (maxsize : nat) (k v : pyval) (l : list (pyval * pyval))
  : list (pyval * pyval) :=
  (k, v) :: (if Nat.leb maxsize (List.length l) then removelast l else l).

Definition set_cache (c : lru) (w : world) : world :=
  {| shape_cache := c; trace := trace w |}.

(** The wrapper [lru_cache(maxsize)] puts around [f], for the one positional
    argument that varies ([self] is the singleton): hash the key, serve a
    hit from the store and mark it most recent, otherwise count a miss, run
    [f] and store what it returned.  An exception of [f] stores nothing. *)
Definition lru_cache (maxsize : nat) (f : pyval -> M pyval) (key : pyval) : M pyval :=
  fun w =>
    if negb (hashable key) then (Raised (Exn TypeError "unhashable type"), w)
    else
      let c := shape_cache w in
      match cache_find key (entries c) with
      | Some (k', result) =>
          (Returned result,
           set_cache {| entries := (k', result) :: cache_remove key (entries c);
                        hits := S (hits c); misses := misses c |} w)
      | None =>
          let w1 := set_cache {| entries := entries c; hits := hits c;
                                 misses := S (misses c) |} w in
          match f key w1 with
          | (Raised e, w2) => (Raised e, w2)
          | (Returned result, w2) =>
              let c2 := shape_cache w2 in
              match cache_find key (entries c2) with
              | Some _ => (Returned result, w2)
              | None =>
                  (Returned result,
                   set_cache {| entries := cache_store maxsize key result (entries c2);
                                hits := hits c2; misses := misses c2 |} w2)
              end
          end
      end.

Definition maxsize : nat := 1024%nat.

(** [_shaper.shape_text(text)] as callers see it. *)
Definition shape_text (ext : capabilities) (txt : pyval) : M pyval :=
  lru_cache maxsize (shape_text_body ext) txt.

(** [shape_arabic] (line 64). *)
Definition shape_arabic (ext : capabilities) (txt : pyval) : M pyval :=
  shape_text ext txt.


(** A history of calls, each under the libraries' behaviour at that time;
    a call that raises leaves its effects and the history goes on. *)
Fixpoint run_calls (calls : list (capabilities * pyval)) (w : world) : world :=
  match calls with
  | [] => w
  | (ext, v) :: rest => run_calls rest (snd (shape_text ext v w))
  end.

(* ===================================================================== *)
(** ** Document objects *)
(* ===================================================================== *)

(** What [hasattr] and attribute access see. *)
Inductive attribute (A : Type) :=
| NoAttribute
| Attribute (a : A).
Arguments NoAttribute {A}.
Arguments Attribute {A} a.

(** The objects of the document model, reduced to the fields the module
    touches.  An object is truthy; Python's [None] is Rocq's [None]. *)
Record PdfParagraph := {
  paragraph_unicode : attribute pyval
}.

Record PdfSameStyleUnicodeCharacters := {
  chars_unicode : attribute pyval
}.

Record PdfParagraphComposition := {
  pdf_same_style_unicode_characters : attribute (option PdfSameStyleUnicodeCharacters)
}.

(** [a <= b] on two [str]: lexicographic by code point. *)
Fixpoint text_le (a b : text) : bool :=
  match a, b with
  | [], _ => true
  | _ :: _, [] => false
  | x :: a', y :: b' => if x <? y then true else if x =? y then text_le a' b' else false
  end.

(** [any(lo <= c <= hi for c in items)] over the items of an object: the
    first item in range ends the search, an item that is not a [str] raises
    at the comparison. *)
Fixpoint any_item_in_range (lo hi : codepoint) (items : list (option text))
  : outcome bool :=
  match items with
  | [] => Returned false
  | None :: _ => Raised (Exn TypeError "'<=' not supported")
  | Some c :: rest =>
      if text_le [lo] c && text_le c [hi] then Returned true
      else any_item_in_range lo hi rest
  end.

(** [any(lo <= c <= hi for c in v)] for an arbitrary value: a [str] yields
    its code points, an iterable object its items; [None], [bool] and [int]
    cannot be iterated. *)
Definition iter_any_in_range (lo hi : codepoint) (v : pyval) : outcome bool :=
  match v with
  | PyStr s => Returned (any_in_range lo hi s)
  | PyObject o =>
      match ob_iter o with
      | Some items => any_item_in_range lo hi items
      | None => Raised (Exn TypeError "object is not iterable")
      end
  | _ => Raised (Exn TypeError "object is not iterable")
  end.

Section UnicodeTables.

(** [str.lower()] on a string with a code point outside ASCII: the Unicode
    case tables, which are not part of the module. *)
Variable unicode_lower : text -> text.

(** [s.lower()] *)
Definition lower (s : text) : text :=
  if forallb is_ascii s then map ascii_lower s else unicode_lower s.

(** Lines 69-84.  A language tag is a [str] or [None]. *)
Definition is_arabic_language_code (lang_code : option text) : bool :=
  match lang_code with
  | None => false
  | Some s =>
      if negb (truthy (PyStr s)) then false
      else
        let lang_code := lower s in
        text_eqb lang_code (text_of_string "ar")
        || startswith lang_code (text_of_string "ar-")
        || endswith lang_code (text_of_string "-ar")
  end.

(** Lines 159-170.  The result is the paragraph as the call leaves it; when
    the call raises, nothing has been assigned. *)
Definition apply_arabic_shaping_to_paragraph (ext : capabilities)
    (paragraph : option PdfParagraph) (lang_code : option text)
  : M (option PdfParagraph) :=
  match paragraph with
  | None => ret paragraph
  | Some p =>
      match paragraph_unicode p with
      | NoAttribute => ret paragraph
      | Attribute u =>
          if negb (truthy u) then ret paragraph
          else if is_arabic_language_code lang_code then
            let original_unicode := u in
            shaped_unicode <- shape_text ext original_unicode ;;
            if negb (py_eq original_unicode shaped_unicode) then
              emit (SetUnicode ParagraphUnicode shaped_unicode) ;;;
              emit (PrintShaping ParagraphUnicode original_unicode shaped_unicode) ;;;
              ret (Some {| paragraph_unicode := Attribute shaped_unicode |})
            else ret paragraph
          else ret paragraph
      end
  end.

(** The condition on line 183. *)
Definition composition_gate (lang_code : option text) (original_unicode : pyval)
  : outcome bool :=
  if is_arabic_language_code lang_code then Returned true
  else iter_any_in_range 0x0600 0x06FF original_unicode.

(** Lines 172-192.  The result is the composition as the call leaves it. *)
Definition apply_arabic_shaping_to_composition (ext : capabilities)
    (composition : option PdfParagraphComposition) (lang_code : option text)
  : M (option PdfParagraphComposition) :=
  match composition with
  | None => ret composition
  | Some c =>
      match pdf_same_style_unicode_characters c with
      | NoAttribute => ret composition
      | Attribute None => ret composition
      | Attribute (Some unicode_chars) =>
          match chars_unicode unicode_chars with
          | NoAttribute => raise (Exn AttributeError "unicode")
          | Attribute u =>
              if negb (truthy u) then ret composition
              else
                let original_unicode := u in
                gate <- lift (composition_gate lang_code original_unicode) ;;
                if (gate : bool) then
                  try_except
                    (shaped_unicode <- shape_text ext original_unicode ;;
                     if negb (py_eq original_unicode shaped_unicode) then
                       emit (SetUnicode CompositionUnicode shaped_unicode) ;;;
                       emit (PrintShaping CompositionUnicode original_unicode
                                          shaped_unicode) ;;;
                       ret (Some {| pdf_same_style_unicode_characters :=
                                      Attribute (Some {| chars_unicode :=
                                                           Attribute shaped_unicode |}) |})
                     else ret composition)
                    (fun e =>
                       emit (WarnCompositionFailed original_unicode e) ;;;
                       ret composition)
                else ret composition
          end
      end
  end.

End UnicodeTables.

(** Attribute assignments recorded in a trace, newest first. *)
Fixpoint assignments (tr : list event) : list (target * pyval) :=
  match tr with
  | [] => []
  | SetUnicode o v :: rest => (o, v) :: assignments rest
  | _ :: rest => assignments rest
  end.

(** Library calls recorded in a trace, newest first. *)
Fixpoint external_calls (tr : list event) : list (capability * text) :=
  match tr with
  | [] => []
  | ExternalCall c a :: rest => (c, a) :: external_calls rest
  | _ :: rest => external_calls rest
  end.

(* ===================================================================== *)
(** ** Derived notions *)
(* ===================================================================== *)

Definition push_events (evs : list event) (w : world) : world :=
  {| shape_cache := shape_cache w; trace := evs ++ trace w |}.

(** What [shape_text] itself can emit: library calls and its two warnings. *)
Definition shaper_event (e : event) : Prop :=
  match e with
  | ExternalCall _ _ | WarnNonString _ | WarnShapingFailed _ _ => True
  | _ => False
  end.

(** [m] leaves the cache alone, emits the same events, all of them
    [shaper_event]s, and gives the same outcome in every world. *)
Definition logs_only {A} (m : M A) : Prop :=
  exists (r : outcome A) (evs : list event),
    Forall shaper_event evs /\ forall w, m w = (r, push_events evs w).

(** What the undecorated function returns for [v], and what it emits
    (newest first). *)
Definition shape_text_value (ext : capabilities) (v : pyval) : outcome pyval :=
  fst (shape_text_body ext v init_world).

Definition shape_text_events (ext : capabilities) (v : pyval) : list event :=
  trace (snd (shape_text_body ext v init_world)).

(** The three new cache states a call can leave. *)
Definition count_hit (k' v key : pyval) (c : lru) : lru :=
  {| entries := (k', v) :: cache_remove key (entries c);
     hits := S (hits c); misses := misses c |}.

Definition count_miss (c : lru) : lru :=
  {| entries := entries c; hits := hits c; misses := S (misses c) |}.

Definition count_miss_store (n : nat) (key v : pyval) (c : lru) : lru :=
  {| entries := cache_store n key v (entries c);
     hits := hits c; misses := S (misses c) |}.

(** Outcome of lines 47-50 as a function of the text. *)
Definition pipeline_result (ext : capabilities) (s : text) : outcome text :=
  match normalize_NFKC ext s with
  | Raised e => Raised e
  | Returned normalized =>
      match reshape ext normalized with
      | Raised e => Raised e
      | Returned reshaped => get_display_R ext reshaped
      end
  end.

(** One of the library calls made for [s] raises [e]. *)
Inductive capability_raises (ext : capabilities) (s : text) (e : exn) : Prop :=
| raises_in_normalize :
    normalize_NFKC ext s = Raised e -> capability_raises ext s e
| raises_in_reshape normalized :
    normalize_NFKC ext s = Returned normalized ->
    reshape ext normalized = Raised e -> capability_raises ext s e
| raises_in_get_display normalized reshaped :
    normalize_NFKC ext s = Returned normalized ->
    reshape ext normalized = Returned reshaped ->
    get_display_R ext reshaped = Raised e -> capability_raises ext s e.

(** The world after a history of calls with the libraries behaving the
    same throughout, starting from the empty cache. *)
Definition run_same (ext : capabilities) (history : list pyval) : world :=
  run_calls (map (fun v => (ext, v)) history) init_world.

(** Every stored result is what the function returns for the stored key. *)
Definition cache_sound (ext : capabilities) (w : world) : Prop :=
  Forall (fun kv => shape_text_value ext (fst kv) = Returned (snd kv))
         (entries (shape_cache w)).

(** Every text without Arabic code points is stored with itself. *)
Definition cache_passthrough (w : world) : Prop :=
  Forall (fun kv => forall s, fst kv = PyStr s -> has_arabic_chars s = false ->
                              snd kv = PyStr s)
         (entries (shape_cache w)).

(** Position of the entry a lookup of [k] finds, counted from the most
    recently used. *)
Fixpoint cache_index (k : pyval) (l : list (pyval * pyval)) : option nat :=
  match l with
  | [] => None
  | (k', _) :: t => if py_eq k k' then Some 0%nat else option_map S (cache_index k t)
  end.

(** The text [s] is stored with [v], among the [i + 1] most recently used
    entries. *)
Definition held_within (i : nat) (s : text) (v : pyval) (l : list (pyval * pyval))
  : Prop :=
  exists j, cache_index (PyStr s) l = Some j /\ (j <= i)%nat
            /\ cache_get (PyStr s) l = Some v.

(** The call on [s] runs into the [except] clause of lines 53-59 with [e]. *)
Definition takes_failure_branch (ext : capabilities) (s : text) (e : exn) : Prop :=
  has_arabic_chars s = true /\ capability_raises ext s e /\ is_Exception e = true.

(** The unicode buffer of a paragraph or composition argument, when the
    object and the attributes leading to it are there. *)
Definition paragraph_buffer (paragraph : option PdfParagraph) : option pyval :=
  match paragraph with
  | Some p =>
      match paragraph_unicode p with
      | Attribute u => Some u
      | NoAttribute => None
      end
  | None => None
  end.

Definition composition_buffer (composition : option PdfParagraphComposition)
  : option pyval :=
  match composition with
  | Some c =>
      match pdf_same_style_unicode_characters c with
      | Attribute (Some unicode_chars) =>
          match chars_unicode unicode_chars with
          | Attribute u => Some u
          | NoAttribute => None
          end
      | _ => None
      end
  | None => None
  end.

(** The buffer is absent, [None] or empty. *)
Definition buffer_empty (buffer : option pyval) : Prop :=
  match buffer with
  | None => True
  | Some u => truthy u = false
  end.

(** The object an adapter leaves behind: the one it returns, or the
    original when it raised. *)
Definition object_after {A} (original : A) (o : outcome A) : A :=
  match o with
  | Returned a => a
  | Raised _ => original
  end.

(** Between [w] and the end of the adapter call no attribute was assigned
    and the object is as before. *)
Definition not_assigned {A} (original : A) (w : world) (out : outcome A * world)
  : Prop :=
  assignments (trace (snd out)) = assignments (trace w)
  /\ object_after original (fst out) = original.

(** Between [w] and the end of the adapter call exactly [v] was assigned
    to the unicode attribute of [o], leaving the object [updated]. *)
Definition assigned_once {A} (o : target) (v : pyval) (updated original : A)
    (w : world) (out : outcome A * world) : Prop :=
  assignments (trace (snd out)) = (o, v) :: assignments (trace w)
  /\ object_after original (fst out) = updated.

Definition with_paragraph_unicode (v : pyval) : option PdfParagraph :=
  Some {| paragraph_unicode := Attribute v |}.

Definition with_composition_unicode (v : pyval) : option PdfParagraphComposition :=
  Some {| pdf_same_style_unicode_characters :=
            Attribute (Some {| chars_unicode := Attribute v |}) |}.


(* ===================================================================== *)
(** ** The rest of the module: shaped-text test, text adapter, comparison
       printer, singleton *)
(* ===================================================================== *)

(** Lines 135-139.  The argument is a [str] or [None]. *)
Definition is_arabic_shaped (txt : option text) : bool :=
  match txt with
  | None => false
  | Some s =>
      if negb (truthy (PyStr s)) then false
      else existsb (fun c => in_range 0xFB50 0xFDFF c || in_range 0xFE70 0xFEFF c) s
  end.

(** What the comparison printer and the command-line tool write to
    standard output, and the one warning the text adapter logs. *)
Inductive console_line :=
| NotArabicOrEmpty (t : option text)
    (* print(f"Not Arabic text or empty: {repr(text)}") *)
| ComparisonHeader
    (* print("\n===== ARABIC TEXT SHAPING COMPARISON =====") *)
| OriginalText (t : text)
| OriginalRepr (t : text)
| ShapedText (s : text)
| ShapedRepr (s : text)
| ComparisonError (e : exn)
    (* print(f"Error in Arabic shaping comparison: {e}") *)
| WarnTextShapingFailed (e : exn)
    (* logger.warning("Arabic shaping failed: %s", e), line 156 *)
| InteractiveBanner
    (* the two lines printed when interactive mode starts *)
| Prompt
    (* input("\nEnter Arabic text: ") *)
| LoopError (e : exn)
    (* print(f"Error: {e}") *)
| EndOfInputError
    (* the same line, for the EOFError of input() *)
| FileError (e : exn)
    (* print(f"Error reading file: {e}") *)
| Help.
    (* parser.print_help() *)

(** Lines 86-133.  [default_reshape] is the module-level
    [arabic_reshaper.reshape], the library's reshaper with its default
    configuration; reordering is the same [get_display(_, base_dir='R')].
    The result pairs what the call returns (the code returns the shaped
    text, the original on failure and [None] for the early exit) with the
    lines it prints, first line first. *)
Definition print_arabic_shaping_comparison (unicode_lower : text -> text)
    (ext : capabilities) (default_reshape : text -> outcome text)
    (txt : option text) (lang_code : option text)
  : outcome pyval * list console_line :=
  match txt with
  | None => (Returned PyNone, [NotArabicOrEmpty txt])
  | Some s =>
      if negb (truthy (PyStr s))
         || negb (is_arabic_language_code unicode_lower lang_code)
      then (Returned PyNone, [NotArabicOrEmpty txt])
      else
        let attempt : outcome text :=
          match default_reshape s with
          | Raised e => Raised e
          | Returned shaped_text => get_display_R ext shaped_text
          end in
        match attempt with
        | Returned shaped_text =>
            (Returned (PyStr shaped_text),
             [ComparisonHeader; OriginalText s; OriginalRepr s;
              ShapedText shaped_text; ShapedRepr shaped_text])
        | Raised e =>
            if is_Exception e then (Returned (PyStr s), [ComparisonError e])
            else (Raised e, [])
        end
  end.

Definition en_ar : option text := Some (text_of_string "en-ar").

(** [s.strip()] for a whitespace table [isspace]. *)
Fixpoint lstrip (isspace : codepoint -> bool) (s : text) : text :=
  match s with
  | [] => []
  | c :: rest => if isspace c then lstrip isspace rest else s
  end.

Definition strip (isspace : codepoint -> bool) (s : text) : text :=
  rev (lstrip isspace (rev (lstrip isspace s))).

Section TextAdapter.

Variable unicode_lower : text -> text.

(** [str.isspace] per code point: the Unicode whitespace table. *)
Variable isspace : codepoint -> bool.

Variable ext : capabilities.
Variable default_reshape : text -> outcome text.

(** The body of the [try] on lines 147-154. *)
Definition text_adapter_attempt (txt : pyval) (lang_code : option text)
    (debug_print : bool) (w : world) : outcome pyval * world * list console_line :=
  if is_arabic_language_code unicode_lower lang_code then
    match shape_text ext txt w with
    | (Raised e, w1) => (Raised e, w1, [])
    | (Returned reshaped_text, w1) =>
        if debug_print then
          match txt with
          | PyStr s =>
              if truthy (PyStr (strip isspace s)) then
                match print_arabic_shaping_comparison unicode_lower ext
                        default_reshape (Some s) lang_code with
                | (Raised e, out) => (Raised e, w1, out)
                | (Returned _, out) => (Returned reshaped_text, w1, out)
                end
              else (Returned reshaped_text, w1, [])
          | _ =>
              (* None, bool, int and the objects of [pyobject]: no [strip] *)
              (Raised (Exn AttributeError "strip"), w1, [])
          end
        else (Returned reshaped_text, w1, [])
    end
  else (Returned txt, w, []).

(** Lines 141-157. *)
Definition apply_arabic_shaping_to_text (txt : pyval) (lang_code : option text)
    (debug_print : bool) (w : world) : outcome pyval * world * list console_line :=
  if negb (truthy txt) then (Returned txt, w, [])
  else
    match text_adapter_attempt txt lang_code debug_print w with
    | (Raised e, w1, out) =>
        if is_Exception e then (Returned txt, w1, out ++ [WarnTextShapingFailed e])
        else (Raised e, w1, out)
    | done => done
    end.

End TextAdapter.

(** *** The singleton (lines 8-28) *)

Inductive config_value := ConfigBool (b : bool) | ConfigStr (s : string).

(** The dictionary built in [_initialize]. *)
Definition shaping_configuration : list (string * config_value) :=
  [("delete_harakat"%string, ConfigBool false);
   ("support_ligatures"%string, ConfigBool true);
   ("RIAL SIGN"%string, ConfigBool true);
   ("use_unshaped_instead_of_isolated"%string, ConfigBool false);
   ("shapes_file"%string, ConfigStr "")].

(** An [ArabicTextShaper] object: its two attributes, each set or not yet. *)
Record shaper_object (R : Type) := {
  configuration : option (list (string * config_value));
  reshaper : option R
}.
Arguments configuration {R} s.
Arguments reshaper {R} s.

(** The class: its [_instance] attribute, and how many times
    [ArabicReshaper(...)] has been called for it. *)
Record shaper_class (R : Type) := {
  _instance : option (shaper_object R);
  reshapers_built : nat
}.
Arguments _instance {R} s.
Arguments reshapers_built {R} s.

Definition fresh_class {R} : shaper_class R :=
  {| _instance := None; reshapers_built := 0%nat |}.

(** [ArabicTextShaper()]: [__new__] with the [_initialize] it calls.
    [make_reshaper] is the library's constructor [ArabicReshaper(configuration=_)].
    The new object is bound to [cls._instance] before it is initialised, and
    [_initialize] sets [configuration] before it builds the reshaper. *)
Definition new_ArabicTextShaper {R}
    (make_reshaper : list (string * config_value) -> outcome R)
    (cls : shaper_class R) : outcome (shaper_object R) * shaper_class R :=
  match _instance cls with
  | Some self => (Returned self, cls)
  | None =>
      match make_reshaper shaping_configuration with
      | Returned r =>
          let self := {| configuration := Some shaping_configuration;
                         reshaper := Some r |} in
          (Returned self,
           {| _instance := Some self; reshapers_built := S (reshapers_built cls) |})
      | Raised e =>
          let self := {| configuration := Some shaping_configuration;
                         reshaper := None |} in
          (Raised e,
           {| _instance := Some self; reshapers_built := S (reshapers_built cls) |})
      end
  end.

(** The class after [n] more constructions. *)
Fixpoint construct_times {R}
    (make_reshaper : list (string * config_value) -> outcome R)
    (n : nat) (cls : shaper_class R) : shaper_class R :=
  match n with
  | O => cls
  | S n' => construct_times make_reshaper n' (snd (new_ArabicTextShaper make_reshaper cls))
  end.

(** *** The command-line tool (babeldoc/tools/arabic_text_shaper.py) *)

(** The arguments as [argparse] hands them to [main]. *)
Record cli_args := {
  arg_text : option text;
  arg_file : option text;
  arg_interactive : bool
}.

(** What the user does at an [input()] prompt: type a line, or press
    Ctrl-C.  When the list is used up, standard input is at its end and
    [input()] raises [EOFError]. *)
Inductive stdin_event := TypedLine (s : text) | CtrlC.

(** How a run ends: [main] returns, an exception leaves [main], or the
    step budget of the model ran out with the loop still going. *)
Inductive run_end := Finished | Propagated (e : exn) | StillRunning.

Definition is_KeyboardInterrupt (e : exn) : bool :=
  match e with
  | Exn KeyboardInterrupt _ => true
  | _ => false
  end.

Section CommandLine.

Variable unicode_lower : text -> text.
Variable ext : capabilities.
Variable default_reshape : text -> outcome text.

(** [open(path, 'r', encoding='utf-8').read()] *)
Variable read_file : text -> outcome text.

(** [print_arabic_shaping_comparison(text)], [lang_code] left at "en-ar". *)
Definition compare_default (s : text) : outcome pyval * list console_line :=
  print_arabic_shaping_comparison unicode_lower ext default_reshape (Some s) en_ar.

(** The [while True] loop of lines 31-42, for at most [fuel] prompts. *)
Fixpoint interactive_loop (fuel : nat) (stdin : list stdin_event)
  : run_end * list console_line :=
  match fuel with
  | O => (StillRunning, [])
  | S fuel' =>
      match stdin with
      | [] =>
          (* EOFError from input(): caught by [except Exception] *)
          let (r, out) := interactive_loop fuel' [] in
          (r, Prompt :: EndOfInputError :: out)
      | CtrlC :: _ => (Finished, [Prompt])
      | TypedLine s :: rest =>
          if text_eqb (lower unicode_lower s) (text_of_string "exit")
          then (Finished, [Prompt])
          else if negb (truthy (PyStr s)) then
            let (r, out) := interactive_loop fuel' rest in (r, Prompt :: out)
          else
            match compare_default s with
            | (Returned _, lines) =>
                let (r, out) := interactive_loop fuel' rest in
                (r, Prompt :: lines ++ out)
            | (Raised e, lines) =>
                if is_KeyboardInterrupt e then (Finished, Prompt :: lines)
                else if is_Exception e then
                  let (r, out) := interactive_loop fuel' rest in
                  (r, Prompt :: lines ++ LoopError e :: out)
                else (Propagated e, Prompt :: lines)
            end
      end
  end.

(** Lines 19-57, after [parse_args]. *)
Definition main (fuel : nat) (args : cli_args) (stdin : list stdin_event)
  : run_end * list console_line :=
  if arg_interactive args then
    let (r, out) := interactive_loop fuel stdin in (r, InteractiveBanner :: out)
  else
    match arg_file args with
    | Some (c :: path) =>
        match read_file (c :: path) with
        | Raised e =>
            if is_Exception e then (Finished, [FileError e]) else (Propagated e, [])
        | Returned s =>
            match compare_default s with
            | (Returned _, lines) => (Finished, lines)
            | (Raised e, lines) =>
                if is_Exception e then (Finished, lines ++ [FileError e])
                else (Propagated e, lines)
            end
        end
    | _ =>
        match arg_text args with
        | Some (c :: s) =>
            match compare_default (c :: s) with
            | (Returned _, lines) => (Finished, lines)
            | (Raised e, lines) => (Propagated e, lines)
            end
        | _ => (Finished, [Help])
        end
    end.

(** A typed line that does not ask to leave. *)
Definition stays (ev : stdin_event) : Prop :=
  match ev with
  | TypedLine s => text_eqb (lower unicode_lower s) (text_of_string "exit") = false
  | CtrlC => False
  end.

(** The libraries are not interrupted: what they raise is an [Exception]. *)
Definition uninterrupted : Prop :=
  forall s e,
    fst (compare_default s) <> Raised e.

End CommandLine.

(** *** Notions used for the cache invariants *)

(** No entry's key equals the key of a later entry. *)
Fixpoint distinct_keys (l : list (pyval * pyval)) : Prop :=
  match l with
  | [] => True
  | (k, _) :: t => cache_find k t = None /\ distinct_keys t
  end.

(** The value is a [str]. *)
Definition is_text (v : pyval) : Prop :=
  match v with
  | PyStr _ => True
  | _ => False
  end.

(** Every text key is stored with a text. *)
Definition cache_texts (w : world) : Prop :=
  Forall (fun kv => is_text (fst kv) -> is_text (snd kv)) (entries (shape_cache w)).

(** "ﺍ", U+FE8D ARABIC LETTER ALEF ISOLATED FORM *)
Definition alef_isolated : text := [0xFE8D].

(** The reshaper is interrupted from the keyboard. *)
Definition ext_interrupted : capabilities :=
  {| normalize_NFKC := fun s => Returned s;
     reshape := fun _ => Raised (Exn KeyboardInterrupt "");
     get_display_R := fun s => Returned (rev s) |}.

(** Whitespace of ASCII, for concrete runs. *)
Definition ascii_isspace (c : codepoint) : bool :=
  (c =? 32) || ((9 <=? c) && (c <=? 13)).

(** A default reshaper that leaves the text, as [ext_ok]'s does. *)
Definition reshape_identity (s : text) : outcome text := Returned s.

(* ===================================================================== *)
(** ** Example data *)
(* ===================================================================== *)

(** Stand-ins for the libraries in concrete runs: one that works (reshaping
    leaves the text, reordering reverses it), one whose reshaper raises, one
    that is interrupted from the keyboard inside the reshaper. *)
Definition ext_ok : capabilities :=
  {| normalize_NFKC := fun s => Returned s;
     reshape := fun s => Returned s;
     get_display_R := fun s => Returned (rev s) |}.

Definition ext_fail : capabilities :=
  {| normalize_NFKC := fun s => Returned s;
     reshape := fun _ => Raised (Exn RuntimeError "reshape failed");
     get_display_R := fun s => Returned (rev s) |}.

(** "بت" *)
Definition beh_teh : text := [0x0628; 0x062A].

(** "السلام" *)
Definition salam : text := [0x0627; 0x0644; 0x0633; 0x0644; 0x0627; 0x0645].

(** The list [[1]]: unhashable, truthy, printed as "[1]", iterating to
    one item that is not a [str]. *)
Definition unhashable_object : pyobject :=
  {| ob_id := 0; ob_hashable := false; ob_truthy := true;
     ob_str := Returned (text_of_string "[1]"); ob_iter := Some [None] |}.

(** The empty list: unhashable and falsy. *)
Definition empty_list : pyobject :=
  {| ob_id := 1; ob_hashable := false; ob_truthy := false;
     ob_str := Returned (text_of_string "[]"); ob_iter := Some [] |}.

Definition ascii_only_lower : text -> text := fun s => s.

(** "Hello World" *)
Definition hello_world : text := text_of_string "Hello World".


(** Calls on 1024 other texts, the one-character strings U+0001 to U+0400. *)
Definition filler_calls : list (capabilities * pyval) :=
  map (fun i => (ext_ok, PyStr [N.of_nat i])) (seq 1 1024).

(* ===================================================================== *)
(** ** Basic facts *)
(* ===================================================================== *)

Lemma text_eqb_eq (a b : text) : text_eqb a b = true <-> a = b.
Proof.
  revert b; induction a as [|x a IH]; intros [|y b]; simpl; split;
    try discriminate; try reflexivity.
  - intros H. apply andb_true_iff in H as [Hx Hab].
    apply N.eqb_eq in Hx. apply IH in Hab. now subst.
  - intros H. injection H as -> ->.
    rewrite N.eqb_refl. simpl. now apply IH.
Qed.

Lemma text_eqb_refl (a : text) : text_eqb a a = true.
Proof. now apply text_eqb_eq. Qed.

(** A [str] key only ever equals the same [str]. *)
Lemma py_eq_str_l (s : text) (k : pyval) :
  py_eq (PyStr s) k = true -> k = PyStr s.
Proof.
  destruct k; simpl; try discriminate.
  intros H. apply text_eqb_eq in H. now subst.
Qed.

Lemma py_eq_str_r (s : text) (k : pyval) :
  py_eq k (PyStr s) = true -> k = PyStr s.
Proof.
  destruct k; simpl; try discriminate.
  intros H. apply text_eqb_eq in H. now subst.
Qed.

Lemma py_eq_str_refl (s : text) : py_eq (PyStr s) (PyStr s) = true.
Proof. simpl. apply text_eqb_refl. Qed.

Lemma startswith_app (p rest : text) : startswith (p ++ rest) p = true.
Proof.
  induction p as [|y p IH]; simpl.
  - reflexivity.
  - now rewrite N.eqb_refl.
Qed.

Lemma startswith_prefix (s p : text) :
  startswith s p = true <-> exists rest, s = p ++ rest.
Proof.
  split.
  - revert s; induction p as [|y p IH]; intros s H.
    + now exists s.
    + destruct s as [|x s]; simpl in H; [discriminate|].
      apply andb_true_iff in H as [Hx Hs].
      apply N.eqb_eq in Hx; subst.
      destruct (IH _ Hs) as [rest ->]. now exists rest.
  - intros [rest ->]. apply startswith_app.
Qed.

Lemma endswith_suffix (s p : text) :
  endswith s p = true <-> exists front, s = front ++ p.
Proof.
  unfold endswith. rewrite startswith_prefix. split.
  - intros [rest H]. exists (rev rest).
    rewrite <- (rev_involutive s), H, rev_app_distr, rev_involutive.
    reflexivity.
  - intros [front ->]. exists (rev front). apply rev_app_distr.
Qed.

Lemma lower_nil (unicode_lower : text -> text) : lower unicode_lower [] = [].
Proof. reflexivity. Qed.

(* ===================================================================== *)
(** ** Computations that only emit events *)
(* ===================================================================== *)

Lemma push_events_nil (w : world) : push_events [] w = w.
Proof. now destruct w. Qed.

Lemma push_events_app (e1 e2 : list event) (w : world) :
  push_events e2 (push_events e1 w) = push_events (e2 ++ e1) w.
Proof. unfold push_events; simpl. now rewrite app_assoc. Qed.

Lemma logs_only_ret {A} (a : A) : logs_only (ret a).
Proof.
  exists (Returned a), []. split; [constructor|].
  intros w. unfold ret. now rewrite push_events_nil.
Qed.

Lemma logs_only_lift {A} (o : outcome A) : logs_only (lift o).
Proof.
  exists o, []. split; [constructor|].
  intros w. unfold lift. now rewrite push_events_nil.
Qed.

Lemma logs_only_emit (e : event) : shaper_event e -> logs_only (emit e).
Proof.
  intros He. exists (Returned tt), [e]. split; [now repeat constructor|].
  reflexivity.
Qed.

Lemma logs_only_bind {A B} (m : M A) (k : A -> M B) :
  logs_only m -> (forall a, logs_only (k a)) -> logs_only (bind m k).
Proof.
  intros (r & evs & Hevs & Hm) Hk. destruct r as [a|e].
  - destruct (Hk a) as (r' & evs' & Hevs' & Hka).
    exists r', (evs' ++ evs). split; [now apply Forall_app|].
    intros w. unfold bind. now rewrite Hm, Hka, push_events_app.
  - exists (Raised e), evs. split; [assumption|].
    intros w. unfold bind. now rewrite Hm.
Qed.

Lemma logs_only_try_except {A} (body : M A) (handler : exn -> M A) :
  logs_only body -> (forall e, logs_only (handler e)) ->
  logs_only (try_except body handler).
Proof.
  intros (r & evs & Hevs & Hm) Hh. destruct r as [a|e].
  - exists (Returned a), evs. split; [assumption|].
    intros w. unfold try_except. now rewrite Hm.
  - destruct (is_Exception e) eqn:He.
    + destruct (Hh e) as (r' & evs' & Hevs' & Hhe).
      exists r', (evs' ++ evs). split; [now apply Forall_app|].
      intros w. unfold try_except. now rewrite Hm, He, Hhe, push_events_app.
    + exists (Raised e), evs. split; [assumption|].
      intros w. unfold try_except. now rewrite Hm, He.
Qed.

Lemma logs_only_call_external (ext : capabilities) (c : capability) (s : text) :
  logs_only (call_external ext c s).
Proof.
  unfold call_external.
  apply logs_only_bind; [now apply logs_only_emit | intros _; apply logs_only_lift].
Qed.

Create HintDb logs.

#[local] Hint Resolve logs_only_ret logs_only_lift logs_only_call_external : logs.

Ltac logs_only_tac :=
  repeat first
    [ apply logs_only_bind; [|intro]
    | apply logs_only_try_except; [|intro]
    | apply logs_only_emit; exact I
    | solve [auto with logs] ].

Lemma logs_only_shaping_pipeline (ext : capabilities) (s : text) :
  logs_only (shaping_pipeline ext s).
Proof. unfold shaping_pipeline. logs_only_tac. Qed.

Lemma logs_only_shape_text_body (ext : capabilities) (v : pyval) :
  logs_only (shape_text_body ext v).
Proof.
  unfold shape_text_body.
  destruct (negb (truthy v)); [auto with logs|].
  destruct v; logs_only_tac.
  destruct (has_arabic_chars s); logs_only_tac.
Qed.

Lemma shape_text_body_run (ext : capabilities) (v : pyval) (w : world) :
  shape_text_body ext v w
  = (shape_text_value ext v, push_events (shape_text_events ext v) w).
Proof.
  destruct (logs_only_shape_text_body ext v) as (r & evs & _ & H).
  unfold shape_text_value, shape_text_events.
  rewrite (H init_world), (H w). simpl. now rewrite app_nil_r.
Qed.

Lemma shape_text_events_shaper (ext : capabilities) (v : pyval) :
  Forall shaper_event (shape_text_events ext v).
Proof.
  destruct (logs_only_shape_text_body ext v) as (r & evs & Hevs & H).
  unfold shape_text_events.
  rewrite (H init_world). simpl. now rewrite app_nil_r.
Qed.

Lemma assignments_app (a b : list event) :
  assignments (a ++ b) = assignments a ++ assignments b.
Proof.
  induction a as [|e a IH]; [reflexivity|].
  destruct e; simpl; now rewrite ?IH.
Qed.

Lemma assignments_shaper (evs : list event) :
  Forall shaper_event evs -> assignments evs = [].
Proof.
  induction 1 as [|e evs He Hevs IH]; [reflexivity|].
  destruct e; simpl in He |- *; now try contradiction.
Qed.

(* ===================================================================== *)
(** ** The cache store *)
(* ===================================================================== *)

Lemma cache_find_In (k : pyval) (l : list (pyval * pyval)) (k' v : pyval) :
  cache_find k l = Some (k', v) -> In (k', v) l /\ py_eq k k' = true.
Proof.
  induction l as [|[k0 v0] l IH]; simpl; [discriminate|].
  destruct (py_eq k k0) eqn:E.
  - intros H. injection H as -> ->. auto.
  - intros H. destruct (IH H). auto.
Qed.

Lemma cache_get_str (s : text) (l : list (pyval * pyval)) (v : pyval) :
  cache_get (PyStr s) l = Some v <-> cache_find (PyStr s) l = Some (PyStr s, v).
Proof.
  unfold cache_get. split.
  - destruct (cache_find (PyStr s) l) as [[k' v']|] eqn:E; simpl; [|discriminate].
    intros H. injection H as ->.
    apply cache_find_In in E as [_ E]. apply py_eq_str_l in E. now subst.
  - now intros ->.
Qed.

Lemma cache_get_None (k : pyval) (l : list (pyval * pyval)) :
  cache_get k l = None <-> cache_find k l = None.
Proof.
  unfold cache_get. destruct (cache_find k l); simpl; split; congruence.
Qed.

Lemma Forall_cache_remove {P : pyval * pyval -> Prop} (k : pyval) l :
  Forall P l -> Forall P (cache_remove k l).
Proof.
  induction 1 as [|[k0 v0] l Hx Hl IH]; simpl; [constructor|].
  destruct (py_eq k k0); [assumption | now constructor].
Qed.

Lemma Forall_removelast {A} {P : A -> Prop} (l : list A) :
  Forall P l -> Forall P (removelast l).
Proof.
  induction 1 as [|x l Hx Hl IH]; simpl; [constructor|].
  destruct l; [constructor | now constructor].
Qed.

Lemma Forall_cache_store {P : pyval * pyval -> Prop} (n : nat) (k v : pyval) l :
  P (k, v) -> Forall P l -> Forall P (cache_store n k v l).
Proof.
  intros Hkv Hl. unfold cache_store. constructor; [assumption|].
  destruct (Nat.leb n (List.length l)); [now apply Forall_removelast | assumption].
Qed.

(* ===================================================================== *)
(** ** The wrapper, case by case *)
(* ===================================================================== *)

Section LruWrapper.

Variable n : nat.
Variable f : pyval -> M pyval.
Variable val : pyval -> outcome pyval.
Variable evs : pyval -> list event.
Hypothesis f_run : forall k w, f k w = (val k, push_events (evs k) w).

Lemma lru_unhashable (key : pyval) (w : world) :
  hashable key = false ->
  lru_cache n f key w = (Raised (Exn TypeError "unhashable type"), w).
Proof. intros H. unfold lru_cache. now rewrite H. Qed.

Lemma lru_hit (key k' v : pyval) (w : world) :
  hashable key = true ->
  cache_find key (entries (shape_cache w)) = Some (k', v) ->
  lru_cache n f key w = (Returned v, set_cache (count_hit k' v key (shape_cache w)) w).
Proof. intros H E. unfold lru_cache. now rewrite H, E. Qed.

Lemma lru_miss_returned (key v : pyval) (w : world) :
  hashable key = true ->
  cache_find key (entries (shape_cache w)) = None ->
  val key = Returned v ->
  lru_cache n f key w
  = (Returned v,
     push_events (evs key) (set_cache (count_miss_store n key v (shape_cache w)) w)).
Proof.
  intros H E V. unfold lru_cache. rewrite H, E. simpl.
  rewrite f_run, V. simpl. now rewrite E.
Qed.

Lemma lru_miss_raised (key : pyval) (e : exn) (w : world) :
  hashable key = true ->
  cache_find key (entries (shape_cache w)) = None ->
  val key = Raised e ->
  lru_cache n f key w
  = (Raised e, push_events (evs key) (set_cache (count_miss (shape_cache w)) w)).
Proof.
  intros H E V. unfold lru_cache. rewrite H, E. simpl.
  now rewrite f_run, V.
Qed.

(** Every call is one of the four cases. *)
Lemma lru_cases (key : pyval) (w : world) :
  (hashable key = false /\
   lru_cache n f key w = (Raised (Exn TypeError "unhashable type"), w))
  \/ (exists k' v, cache_find key (entries (shape_cache w)) = Some (k', v) /\
        lru_cache n f key w
        = (Returned v, set_cache (count_hit k' v key (shape_cache w)) w))
  \/ (exists v, hashable key = true /\
        cache_find key (entries (shape_cache w)) = None /\ val key = Returned v /\
        lru_cache n f key w
        = (Returned v,
           push_events (evs key)
             (set_cache (count_miss_store n key v (shape_cache w)) w)))
  \/ (exists e, cache_find key (entries (shape_cache w)) = None /\ val key = Raised e /\
        lru_cache n f key w
        = (Raised e, push_events (evs key) (set_cache (count_miss (shape_cache w)) w))).
Proof.
  destruct (hashable key) eqn:H.
  - right. destruct (cache_find key (entries (shape_cache w))) as [[k' v]|] eqn:E.
    + left. exists k', v. split; [reflexivity|]. now apply lru_hit.
    + right. destruct (val key) as [v|e] eqn:V.
      * left. exists v. repeat split; trivial. now apply lru_miss_returned.
      * right. exists e. repeat split; trivial. now apply lru_miss_raised.
  - left. split; [reflexivity|]. now apply lru_unhashable.
Qed.

(** An invariant of all stored pairs that the function's results satisfy
    is kept by every call. *)
Lemma lru_keeps_Forall (P : pyval * pyval -> Prop) (key : pyval) (w : world) :
  (forall v, hashable key = true -> val key = Returned v -> P (key, v)) ->
  Forall P (entries (shape_cache w)) ->
  Forall P (entries (shape_cache (snd (lru_cache n f key w)))).
Proof.
  intros HP Hw.
  destruct (lru_cases key w)
    as [[_ ->]|[(k' & v & E & ->)|[(v & H & E & V & ->)|(e & E & V & ->)]]]; simpl.
  - assumption.
  - constructor.
    + apply cache_find_In in E as [E _].
      rewrite Forall_forall in Hw. now apply Hw.
    + now apply Forall_cache_remove.
  - apply Forall_cache_store; auto.
  - assumption.
Qed.

End LruWrapper.

(* ===================================================================== *)
(** ** What [shape_text] returns *)
(* ===================================================================== *)

Lemma shaping_pipeline_result (ext : capabilities) (s : text) (w : world) :
  fst (shaping_pipeline ext s w) = pipeline_result ext s.
Proof.
  unfold shaping_pipeline, pipeline_result, call_external, bind, emit, lift, ret.
  simpl.
  destruct (normalize_NFKC ext s) as [nm|e]; simpl; [|reflexivity].
  destruct (reshape ext nm) as [rs|e]; simpl; [|reflexivity].
  destruct (get_display_R ext rs); reflexivity.
Qed.

Lemma capability_raises_result (ext : capabilities) (s : text) (e : exn) :
  capability_raises ext s e <-> pipeline_result ext s = Raised e.
Proof.
  unfold pipeline_result. split.
  - intros [H|nm H1 H2|nm rs H1 H2 H3].
    + now rewrite H.
    + now rewrite H1, H2.
    + now rewrite H1, H2.
  - destruct (normalize_NFKC ext s) as [nm|e0] eqn:H1.
    + destruct (reshape ext nm) as [rs|e1] eqn:H2.
      * intros H3. eapply raises_in_get_display; eauto.
      * intros H. injection H as ->. eapply raises_in_reshape; eauto.
    + intros H. injection H as ->. now apply raises_in_normalize.
Qed.

(** The value of the undecorated function on a [str]. *)
Lemma shape_text_value_str (ext : capabilities) (s : text) :
  shape_text_value ext (PyStr s)
  = if has_arabic_chars s then
      match pipeline_result ext s with
      | Returned shaped => Returned (PyStr shaped)
      | Raised e => if is_Exception e then Returned (PyStr s) else Raised e
      end
    else Returned (PyStr s).
Proof.
  unfold shape_text_value, shape_text_body.
  destruct s as [|c s]; [reflexivity|].
  cbn [truthy negb].
  destruct (has_arabic_chars (c :: s)); [|reflexivity].
  rewrite <- (shaping_pipeline_result ext (c :: s) init_world).
  unfold try_except, bind, ret.
  destruct (shaping_pipeline ext (c :: s) init_world) as [[shaped|e] w']; simpl;
    [reflexivity|].
  destruct (is_Exception e); reflexivity.
Qed.

Lemma shape_text_events_passthrough (ext : capabilities) (s : text) :
  has_arabic_chars s = false -> shape_text_events ext (PyStr s) = [].
Proof.
  intros H. unfold shape_text_events, shape_text_body.
  destruct s as [|c s]; [reflexivity|].
  cbn [truthy negb]. now rewrite H.
Qed.

Lemma shape_text_events_failure (ext : capabilities) (s : text) (e : exn) :
  has_arabic_chars s = true -> capability_raises ext s e -> is_Exception e = true ->
  exists earlier,
    shape_text_events ext (PyStr s) = WarnShapingFailed (PyStr s) e :: earlier.
Proof.
  intros Ha Hr He. apply capability_raises_result in Hr.
  rewrite <- (shaping_pipeline_result ext s init_world) in Hr.
  unfold shape_text_events, shape_text_body.
  destruct s as [|c s]; [discriminate|].
  cbn [truthy negb]. rewrite Ha.
  unfold try_except, bind, ret, emit.
  destruct (shaping_pipeline ext (c :: s) init_world) as [[shaped|e'] w'];
    simpl in Hr |- *; [discriminate|].
  injection Hr as ->. rewrite He. simpl. eauto.
Qed.

(** Case analysis of one call [shape_text ext key w]. *)
Ltac shape_text_cases ext key w :=
  let k' := fresh "k'" in
  let v := fresh "v" in
  let e := fresh "e" in
  let Hh := fresh "Hhash" in
  let Hf := fresh "Hfind" in
  let Hv := fresh "Hval" in
  let Hc := fresh "Hcall" in
  unfold shape_text;
  destruct (lru_cases maxsize _ _ _ (shape_text_body_run ext) key w)
    as [[Hh Hc]|[(k' & v & Hf & Hc)|[(v & Hh & Hf & Hv & Hc)|(e & Hf & Hv & Hc)]]];
  rewrite Hc; clear Hc.

(** *** Invariants of the store *)

Lemma cache_sound_init (ext : capabilities) : cache_sound ext init_world.
Proof. constructor. Qed.

Lemma cache_sound_step (ext : capabilities) (key : pyval) (w : world) :
  cache_sound ext w -> cache_sound ext (snd (shape_text ext key w)).
Proof.
  unfold cache_sound, shape_text.
  apply (lru_keeps_Forall _ _ _ _ (shape_text_body_run ext)).
  intros v _ Hv. exact Hv.
Qed.

Lemma cache_sound_run_same (ext : capabilities) (history : list pyval) :
  cache_sound ext (run_same ext history).
Proof.
  unfold run_same. generalize (cache_sound_init ext).
  generalize init_world.
  induction history as [|v history IH]; intros w Hw; simpl; [assumption|].
  apply IH. now apply cache_sound_step.
Qed.

(** With a sound store, hit or miss, a call on a text gives what the
    undecorated function gives. *)
Lemma shape_text_sound (ext : capabilities) (s : text) (w : world) :
  cache_sound ext w ->
  fst (shape_text ext (PyStr s) w) = shape_text_value ext (PyStr s).
Proof.
  intros Hw. shape_text_cases ext (PyStr s) w; simpl.
  - discriminate.
  - apply cache_find_In in Hfind as [Hin Heq].
    apply py_eq_str_l in Heq. subst k'.
    unfold cache_sound in Hw. rewrite Forall_forall in Hw.
    symmetry. exact (Hw _ Hin).
  - now rewrite Hval.
  - now rewrite Hval.
Qed.

Lemma shape_text_miss (ext : capabilities) (s : text) (w : world) :
  cache_get (PyStr s) (entries (shape_cache w)) = None ->
  fst (shape_text ext (PyStr s) w) = shape_text_value ext (PyStr s)
  /\ trace (snd (shape_text ext (PyStr s) w))
     = shape_text_events ext (PyStr s) ++ trace w.
Proof.
  intros Hmiss. apply cache_get_None in Hmiss.
  shape_text_cases ext (PyStr s) w; simpl.
  - discriminate.
  - congruence.
  - now rewrite Hval.
  - now rewrite Hval.
Qed.

Lemma cache_passthrough_init : cache_passthrough init_world.
Proof. constructor. Qed.

Lemma cache_passthrough_step (ext : capabilities) (key : pyval) (w : world) :
  cache_passthrough w -> cache_passthrough (snd (shape_text ext key w)).
Proof.
  unfold cache_passthrough, shape_text.
  apply (lru_keeps_Forall _ _ _ _ (shape_text_body_run ext)).
  intros v _ Hv s Hk Hs. simpl in Hk |- *. subst key.
  rewrite shape_text_value_str, Hs in Hv. congruence.
Qed.

Lemma cache_passthrough_run (calls : list (capabilities * pyval)) (w : world) :
  cache_passthrough w -> cache_passthrough (run_calls calls w).
Proof.
  revert w. induction calls as [|[ext v] calls IH]; intros w Hw; simpl;
    [assumption|].
  apply IH. now apply cache_passthrough_step.
Qed.

(** A text without Arabic code points comes back as it is and nothing is
    emitted, whatever the store holds from earlier calls. *)
Lemma shape_text_passthrough (ext : capabilities) (s : text) (w : world) :
  cache_passthrough w -> has_arabic_chars s = false ->
  fst (shape_text ext (PyStr s) w) = Returned (PyStr s)
  /\ trace (snd (shape_text ext (PyStr s) w)) = trace w.
Proof.
  intros Hw Hs.
  pose proof (shape_text_value_str ext s) as Hvalue. rewrite Hs in Hvalue.
  pose proof (shape_text_events_passthrough ext s Hs) as Hevents.
  shape_text_cases ext (PyStr s) w; simpl.
  - discriminate.
  - split; [|reflexivity].
    apply cache_find_In in Hfind as [Hin Heq].
    apply py_eq_str_l in Heq. subst k'.
    unfold cache_passthrough in Hw. rewrite Forall_forall in Hw.
    f_equal. exact (Hw _ Hin s eq_refl Hs).
  - rewrite Hevents. split; [congruence | reflexivity].
  - congruence.
Qed.

Lemma any_in_range_false (lo hi : codepoint) (s : text) :
  any_in_range lo hi s = false <-> forall c, In c s -> ~ (lo <= c <= hi).
Proof.
  unfold any_in_range, in_range. induction s as [|x s IH]; simpl.
  - split; [intros _ c []| reflexivity].
  - rewrite orb_false_iff, IH. split.
    + intros [Hx Hs] c [<-|Hc]; [|now apply Hs].
      intros [H1 H2]. apply N.leb_le in H1, H2. rewrite H1, H2 in Hx. discriminate.
    + intros H. split.
      * destruct (lo <=? x) eqn:E1; [|reflexivity].
        destruct (x <=? hi) eqn:E2; [|reflexivity].
        apply N.leb_le in E1, E2. exfalso. apply (H x); auto.
      * intros c Hc. apply H. auto.
Qed.


Lemma has_arabic_chars_false (s : text) :
  (forall c, In c s -> ~ (0x0600 <= c <= 0x06FF) /\ ~ (0xFB50 <= c <= 0xFDFF)) ->
  has_arabic_chars s = false.
Proof.
  intros H. unfold has_arabic_chars. apply orb_false_iff.
  split; apply any_in_range_false; intros c Hc; now apply H.
Qed.

(* ===================================================================== *)
(** ** Recency: how long an entry stays *)
(* ===================================================================== *)

Lemma cache_index_length (k : pyval) (l : list (pyval * pyval)) (j : nat) :
  cache_index k l = Some j -> (j < List.length l)%nat.
Proof.
  revert j. induction l as [|[k0 v0] l IH]; simpl; intros j; [discriminate|].
  destruct (py_eq k k0).
  - intros H. injection H as <-. lia.
  - destruct (cache_index k l) as [j'|]; simpl; [|discriminate].
    intros H. injection H as <-. specialize (IH _ eq_refl). lia.
Qed.

Lemma held_within_weaken (i i' : nat) (s : text) (v : pyval) l :
  (i <= i')%nat -> held_within i s v l -> held_within i' s v l.
Proof. intros Hi (j & H1 & H2 & H3). exists j. repeat split; trivial. lia. Qed.

Lemma removelast_cons2 {A} (x y : A) (l : list A) :
  removelast (x :: y :: l) = x :: removelast (y :: l).
Proof. reflexivity. Qed.

Lemma cache_index_removelast (k : pyval) (l : list (pyval * pyval)) (j : nat) :
  cache_index k l = Some j -> (S j < List.length l)%nat ->
  cache_index k (removelast l) = Some j
  /\ cache_find k (removelast l) = cache_find k l.
Proof.
  revert j. induction l as [|[k0 v0] l IH]; intros j Hj Hlen; [discriminate|].
  destruct l as [|kv l]; [simpl in Hlen; lia|].
  rewrite removelast_cons2.
  remember (kv :: l) as t eqn:Et. clear Et.
  cbn [cache_index cache_find] in Hj |- *.
  destruct (py_eq k k0); [auto|].
  destruct (cache_index k t) as [j'|] eqn:Ej; [|discriminate].
  simpl in Hj. injection Hj as <-.
  destruct (IH j' eq_refl) as [H1 H2]; [simpl in Hlen; lia|].
  now rewrite H1, H2.
Qed.

Lemma held_within_removelast (i : nat) (s : text) (v : pyval) l :
  held_within i s v l -> (S i < List.length l)%nat ->
  held_within i s v (removelast l).
Proof.
  intros (j & Hj & Hji & Hv) Hlen.
  destruct (cache_index_removelast (PyStr s) l j Hj) as [H1 H2]; [lia|].
  exists j. unfold cache_get in *. now rewrite H1, H2.
Qed.

Lemma held_within_cons (i : nat) (s : text) (v k r : pyval) l :
  py_eq (PyStr s) k = false ->
  held_within i s v l -> held_within (S i) s v ((k, r) :: l).
Proof.
  intros Hk (j & Hj & Hji & Hv). exists (S j).
  unfold cache_get in *. cbn [cache_index cache_find]. rewrite Hk, Hj.
  split; [reflexivity | split; [lia | assumption]].
Qed.

Lemma held_within_cache_store (n i : nat) (s : text) (v k r : pyval) l :
  py_eq (PyStr s) k = false -> (S i < n)%nat ->
  held_within i s v l -> held_within (S i) s v (cache_store n k r l).
Proof.
  intros Hk Hn H. unfold cache_store. apply held_within_cons; [assumption|].
  destruct (Nat.leb n (List.length l)) eqn:E; [|assumption].
  apply Nat.leb_le in E. apply held_within_removelast; [assumption | lia].
Qed.

Lemma held_within_cache_remove (i : nat) (s : text) (v key : pyval) l :
  py_eq key (PyStr s) = false ->
  held_within i s v l -> held_within i s v (cache_remove key l).
Proof.
  intros Hkey (j & Hj & Hji & Hv).
  revert i j Hj Hji Hv. unfold held_within, cache_get.
  induction l as [|[k0 v0] l IH]; intros i j Hj Hji Hv; [discriminate|].
  cbn [cache_index cache_find cache_remove] in Hj, Hv |- *.
  destruct (py_eq (PyStr s) k0) eqn:E0.
  - assert (k0 = PyStr s) by now apply py_eq_str_l. subst k0.
    rewrite Hkey. exists 0%nat. cbn [cache_index cache_find]. rewrite E0.
    split; [reflexivity | split; [lia | assumption]].
  - destruct (cache_index (PyStr s) l) as [j'|] eqn:Ej; [|discriminate].
    simpl in Hj. injection Hj as <-.
    destruct (py_eq key k0).
    + exists j'. split; [assumption | split; [lia | assumption]].
    + destruct (IH j' j' eq_refl (le_n _) Hv) as (j2 & Hj2 & Hle & Hv2).
      exists (S j2). cbn [cache_index cache_find]. rewrite E0, Hj2.
      split; [reflexivity | split; [lia | assumption]].
Qed.

(** One call of [shape_text], with any argument and any behaviour of the
    libraries, moves a stored text back by at most one place. *)
Lemma held_within_step (ext : capabilities) (key : pyval) (w : world)
    (i : nat) (s : text) (v : pyval) :
  (S i < maxsize)%nat ->
  held_within i s v (entries (shape_cache w)) ->
  held_within (S i) s v (entries (shape_cache (snd (shape_text ext key w)))).
Proof.
  intros Hi H.
  assert (Hget : cache_get (PyStr s) (entries (shape_cache w)) = Some v)
    by (destruct H as (j & _ & _ & Hv); exact Hv).
  shape_text_cases ext key w; simpl.
  - apply (held_within_weaken i); [lia | assumption].
  - destruct (py_eq key (PyStr s)) eqn:E.
    + apply py_eq_str_r in E. subst key.
      apply cache_get_str in Hget. rewrite Hget in Hfind.
      injection Hfind as <- <-.
      exists 0%nat. unfold cache_get. cbn [cache_index cache_find].
      rewrite py_eq_str_refl.
      split; [reflexivity | split; [lia | reflexivity]].
    + apply held_within_cons.
      * destruct (py_eq (PyStr s) k') eqn:E'; [|reflexivity].
        apply py_eq_str_l in E'. subst k'.
        apply cache_find_In in Hfind as [_ Hfind]. congruence.
      * now apply held_within_cache_remove.
  - apply held_within_cache_store; trivial.
    destruct (py_eq (PyStr s) key) eqn:E; [|reflexivity].
    apply py_eq_str_l in E. subst key.
    apply cache_get_None in Hfind. congruence.
  - apply (held_within_weaken i); [lia | assumption].
Qed.

Lemma held_within_run (calls : list (capabilities * pyval)) (w : world)
    (i : nat) (s : text) (v : pyval) :
  (i + List.length calls < maxsize)%nat ->
  held_within i s v (entries (shape_cache w)) ->
  held_within (i + List.length calls) s v
              (entries (shape_cache (run_calls calls w))).
Proof.
  revert w i. induction calls as [|[ext key] calls IH]; intros w i Hlen H.
  - simpl. now rewrite Nat.add_0_r.
  - simpl in Hlen |- *. rewrite <- Nat.add_succ_comm.
    apply IH; [lia|].
    apply held_within_step; [lia | assumption].
Qed.

(** A stored text is served from the store: the call returns the stored
    value and emits nothing. *)
Lemma shape_text_hit (ext : capabilities) (s : text) (v : pyval) (w : world) :
  cache_get (PyStr s) (entries (shape_cache w)) = Some v ->
  fst (shape_text ext (PyStr s) w) = Returned v
  /\ trace (snd (shape_text ext (PyStr s) w)) = trace w.
Proof.
  intros Hget. apply cache_get_str in Hget.
  shape_text_cases ext (PyStr s) w; simpl.
  - discriminate.
  - rewrite Hget in Hfind. injection Hfind as <- <-. auto.
  - congruence.
  - congruence.
Qed.

(** A call that misses and returns leaves its result as the most recent
    entry. *)
Lemma shape_text_miss_stores (ext : capabilities) (s : text) (v : pyval) (w : world) :
  cache_get (PyStr s) (entries (shape_cache w)) = None ->
  shape_text_value ext (PyStr s) = Returned v ->
  held_within 0 s v (entries (shape_cache (snd (shape_text ext (PyStr s) w)))).
Proof.
  intros Hmiss Hvalue. apply cache_get_None in Hmiss.
  shape_text_cases ext (PyStr s) w; simpl.
  - discriminate.
  - congruence.
  - exists 0%nat. unfold cache_get, count_miss_store, cache_store.
    cbn [entries cache_index cache_find]. rewrite py_eq_str_refl.
    split; [reflexivity | split; [lia | simpl; congruence]].
  - congruence.
Qed.

Lemma shape_text_miss_any (ext : capabilities) (key : pyval) (w : world) :
  hashable key = true ->
  cache_find key (entries (shape_cache w)) = None ->
  fst (shape_text ext key w) = shape_text_value ext key
  /\ trace (snd (shape_text ext key w)) = shape_text_events ext key ++ trace w.
Proof.
  intros Hh Hmiss.
  shape_text_cases ext key w; simpl.
  - congruence.
  - congruence.
  - now rewrite Hval.
  - now rewrite Hval.
Qed.

(** The undecorated function on a truthy value that is not a [str]. *)
Lemma shape_text_body_non_str (ext : capabilities) (v : pyval) (s : text) :
  isinstance_str v = false -> truthy v = true -> py_str v = Returned s ->
  shape_text_value ext v = Returned (PyStr s)
  /\ shape_text_events ext v = [WarnNonString (py_type v)].
Proof.
  intros Hstr Htruthy Hs.
  unfold shape_text_value, shape_text_events, shape_text_body.
  rewrite Htruthy. cbn [negb].
  destruct v; try discriminate;
    unfold bind, emit, lift, ret; cbn [fst snd trace]; rewrite Hs; auto.
Qed.

(* ===================================================================== *)
(** ** Effects of one call, as the adapters see them *)
(* ===================================================================== *)

Lemma shape_text_assignments (ext : capabilities) (key : pyval) (w : world) :
  assignments (trace (snd (shape_text ext key w))) = assignments (trace w).
Proof.
  shape_text_cases ext key w; simpl; try reflexivity;
    now rewrite assignments_app,
      (assignments_shaper _ (shape_text_events_shaper ext key)).
Qed.



Lemma truthy_str (u : text) : u <> [] -> truthy (PyStr u) = true.
Proof. now destruct u. Qed.

(** Shaping the result of a call again changes nothing when that result
    holds no code point of the two tested ranges (as a result made only of
    U+FE70-U+FEFF forms and non-Arabic characters does): the second call
    takes the fast path.  For any other result the second pass is decided
    by the libraries. *)
Lemma shape_text_again_outside_ranges (ext : capabilities) (T S : text) (w : world) :
  cache_passthrough w ->
  fst (shape_text ext (PyStr T) w) = Returned (PyStr S) ->
  has_arabic_chars S = false ->
  fst (shape_text ext (PyStr S) (snd (shape_text ext (PyStr T) w)))
  = Returned (PyStr S).
Proof.
  intros Hw _ HS.
  apply shape_text_passthrough; [|assumption].
  now apply cache_passthrough_step.
Qed.

(* ===================================================================== *)
(** ** Claims about [shape_text] *)
(* ===================================================================== *)

(** C1.  If one of the library calls (normalisation, reshaping or bidi
    reordering) made for the text [T] raises an exception [e] that
    [except Exception] catches, then [shape_text] returns [T] itself and
    raises nothing: on a call that has to process [T] (no cache entry),
    where it also logs the warning, and after any history of calls under
    the same libraries. *)
Theorem C1_failure_contained (ext : capabilities) (T : text) (e : exn) :
  capability_raises ext T e ->
  is_Exception e = true ->
  (forall w,
      cache_get (PyStr T) (entries (shape_cache w)) = None ->
      fst (shape_text ext (PyStr T) w) = Returned (PyStr T)
      /\ (has_arabic_chars T = true ->
          exists earlier,
            trace (snd (shape_text ext (PyStr T) w))
            = WarnShapingFailed (PyStr T) e :: earlier))
  /\ (forall history,
         fst (shape_text ext (PyStr T) (run_same ext history)) = Returned (PyStr T)).
Proof.
  intros Hraise Hexc.
  assert (Hvalue : shape_text_value ext (PyStr T) = Returned (PyStr T)).
  { rewrite shape_text_value_str.
    apply capability_raises_result in Hraise. rewrite Hraise, Hexc.
    now destruct (has_arabic_chars T). }
  split.
  - intros w Hmiss. destruct (shape_text_miss ext T w Hmiss) as [Hr Ht].
    split; [congruence|].
    intros Harabic.
    destruct (shape_text_events_failure ext T e Harabic Hraise Hexc) as [ev Hev].
    rewrite Ht, Hev. simpl. eauto.
  - intros history. rewrite shape_text_sound; [assumption|].
    apply cache_sound_run_same.
Qed.

Lemma C1_failure_contained_witness :
  fst (shape_text ext_fail (PyStr beh_teh) init_world) = Returned (PyStr beh_teh)
  /\ fst (shape_text ext_fail (PyStr beh_teh) (run_same ext_fail [PyStr beh_teh]))
     = Returned (PyStr beh_teh).
Proof.
  assert (Hraise : capability_raises ext_fail beh_teh
                     (Exn RuntimeError "reshape failed"))
    by (apply (raises_in_reshape ext_fail beh_teh _ beh_teh); reflexivity).
  destruct (C1_failure_contained ext_fail beh_teh _ Hraise eq_refl) as [Hmiss Hany].
  split.
  - exact (proj1 (Hmiss init_world eq_refl)).
  - exact (Hany [PyStr beh_teh]).
Defined.

(** C3.  A text with no code point in U+0600-U+06FF and none in
    U+FB50-U+FDFF is returned exactly, after any history of calls, and the
    call emits nothing: no normalisation, reshaping or reordering call. *)
Theorem C3_non_arabic_passthrough
    (calls : list (capabilities * pyval)) (ext : capabilities) (T : text) :
  (forall c, In c T -> ~ (0x0600 <= c <= 0x06FF) /\ ~ (0xFB50 <= c <= 0xFDFF)) ->
  let w := run_calls calls init_world in
  fst (shape_text ext (PyStr T) w) = Returned (PyStr T)
  /\ trace (snd (shape_text ext (PyStr T) w)) = trace w.
Proof.
  intros Hrange w.
  apply shape_text_passthrough.
  - apply cache_passthrough_run, cache_passthrough_init.
  - now apply has_arabic_chars_false.
Qed.

Lemma C3_non_arabic_passthrough_witness :
  fst (shape_text ext_ok (PyStr hello_world) init_world) = Returned (PyStr hello_world)
  /\ trace (snd (shape_text ext_ok (PyStr hello_world) init_world))
     = trace init_world.
Proof.
  apply (C3_non_arabic_passthrough [] ext_ok hello_world).
  intros c Hc. vm_compute in Hc.
  repeat (destruct Hc as [<-|Hc]; [split; intros [H1 H2]; lia|]).
  contradiction.
Defined.

(** C5.  For every text, the value [shape_text] returns does not depend on
    what earlier calls left in the cache: after any two histories of calls
    (in particular one that has cached the text and one that has not) the
    result is the same. *)
Theorem C5_cache_transparent (ext : capabilities) (history1 history2 : list pyval)
    (T : text) :
  fst (shape_text ext (PyStr T) (run_same ext history1))
  = fst (shape_text ext (PyStr T) (run_same ext history2)).
Proof.
  rewrite !shape_text_sound by apply cache_sound_run_same.
  reflexivity.
Qed.

(** C9.  The coercion the claim describes is not reached for an argument
    that cannot be hashed: whatever its [str()] would give, the cache
    wrapper raises [TypeError] before line 33, and nothing else happens -
    no warning, no cache entry, no counter moved. *)
Theorem C9_unhashable_raises (ext : capabilities) (v : pyval) (w : world) :
  hashable v = false ->
  shape_text ext v w = (Raised (Exn TypeError "unhashable type"), w).
Proof.
  intros Hh. unfold shape_text.
  exact (lru_unhashable maxsize (shape_text_body ext) v w Hh).
Qed.

Lemma C9_unhashable_raises_witness :
  isinstance_str (PyObject unhashable_object) = false
  /\ truthy (PyObject unhashable_object) = true
  /\ py_str (PyObject unhashable_object) = Returned (text_of_string "[1]")
  /\ shape_text ext_ok (PyObject unhashable_object) init_world
     = (Raised (Exn TypeError "unhashable type"), init_world).
Proof.
  split; [reflexivity|]. split; [reflexivity|]. split; [reflexivity|].
  apply (C9_unhashable_raises ext_ok (PyObject unhashable_object) init_world).
  reflexivity.
Defined.

(** C10 (as amended).  When a call on [T] misses the cache, runs into the
    failure branch and returns [T], the pair is stored; after fewer than
    1024 further calls of [shape_text] (any arguments, any behaviour of the
    libraries) a call on [T] still returns [T] from the cache and emits
    nothing, whatever the libraries would now do. *)
Theorem C10_fallback_is_cached (ext1 : capabilities) (T : text) (e : exn) (w : world) :
  cache_get (PyStr T) (entries (shape_cache w)) = None ->
  takes_failure_branch ext1 T e ->
  let w1 := snd (shape_text ext1 (PyStr T) w) in
  fst (shape_text ext1 (PyStr T) w) = Returned (PyStr T)
  /\ cache_get (PyStr T) (entries (shape_cache w1)) = Some (PyStr T)
  /\ forall (calls : list (capabilities * pyval)) (ext2 : capabilities),
       (List.length calls < 1024)%nat ->
       let w2 := run_calls calls w1 in
       fst (shape_text ext2 (PyStr T) w2) = Returned (PyStr T)
       /\ trace (snd (shape_text ext2 (PyStr T) w2)) = trace w2.
Proof.
  intros Hmiss (Harabic & Hraise & Hexc) w1.
  assert (Hvalue : shape_text_value ext1 (PyStr T) = Returned (PyStr T)).
  { rewrite shape_text_value_str, Harabic.
    apply capability_raises_result in Hraise. now rewrite Hraise, Hexc. }
  pose proof (shape_text_miss_stores ext1 T (PyStr T) w Hmiss Hvalue) as Hheld.
  split; [|split].
  - destruct (shape_text_miss ext1 T w Hmiss) as [Hr _]. congruence.
  - now destruct Hheld as (j & _ & _ & Hget).
  - intros calls ext2 Hlen w2.
    apply (held_within_run calls) in Hheld; [|exact Hlen].
    destruct Hheld as (j & _ & _ & Hget).
    now apply shape_text_hit.
Qed.

Lemma C10_fallback_is_cached_witness :
  fst (shape_text ext_fail (PyStr beh_teh) init_world) = Returned (PyStr beh_teh)
  /\ fst (shape_text ext_ok (PyStr beh_teh)
            (run_calls [(ext_ok, PyStr salam)]
               (snd (shape_text ext_fail (PyStr beh_teh) init_world))))
     = Returned (PyStr beh_teh).
Proof.
  assert (Hbranch : takes_failure_branch ext_fail beh_teh
                      (Exn RuntimeError "reshape failed")).
  { split; [reflexivity|]. split; [|reflexivity].
    apply (raises_in_reshape ext_fail beh_teh _ beh_teh); reflexivity. }
  destruct (C10_fallback_is_cached ext_fail beh_teh _ init_world eq_refl Hbranch)
    as (H1 & _ & H2).
  split; [exact H1|].
  apply (H2 [(ext_ok, PyStr salam)] ext_ok). simpl. lia.
Defined.

(** C10, as stated, fails: after 1024 calls on other texts the fallback
    entry has been evicted, and the next call on the text runs the
    libraries again and returns the shaped text. *)
Lemma C10_counterexample :
  let w1 := snd (shape_text ext_fail (PyStr beh_teh) init_world) in
  let w2 := run_calls filler_calls w1 in
  fst (shape_text ext_fail (PyStr beh_teh) init_world) = Returned (PyStr beh_teh)
  /\ cache_get (PyStr beh_teh) (entries (shape_cache w1)) = Some (PyStr beh_teh)
  /\ cache_get (PyStr beh_teh) (entries (shape_cache w2)) = None
  /\ fst (shape_text ext_ok (PyStr beh_teh) w2) = Returned (PyStr [0x062A; 0x0628])
  /\ fst (shape_text ext_ok (PyStr beh_teh) w2) <> Returned (PyStr beh_teh)
  /\ external_calls (trace (snd (shape_text ext_ok (PyStr beh_teh) w2)))
     = [(GetDisplay, beh_teh); (Reshape, beh_teh); (Normalize, beh_teh)]
         ++ external_calls (trace w2).
Proof.
  vm_compute. repeat split. discriminate.
Qed.
(** The three parts of the write-back claim, when nothing was assigned
    ([idle_case]) and when the shaped value [r] was ([active_case]). *)
Ltac idle_case H :=
  split; [intros _; apply H|];
  split; [intros ? _; left; apply H | intros ? ? _ _ _; apply H].

Ltac active_case Hshape Heq Hassign :=
  split; [intros Hempty; simpl in Hempty; congruence|];
  split;
  [ intros ? Hu; injection Hu as <-; right; eexists;
    rewrite Hshape; split; [reflexivity|]; split; [exact Heq|];
    split; simpl; [now rewrite Hassign | reflexivity]
  | intros ? ? Hu Hr Hsame; injection Hu as <-;
    rewrite Hshape in Hr; simpl in Hr; congruence ].

(* ===================================================================== *)
(** ** Claims about the language tag and the adapters *)
(* ===================================================================== *)

Section Adapters.

Variable unicode_lower : text -> text.

(** C4.  [is_arabic_language_code] is true exactly for a tag whose
    lower-cased form is "ar", starts with "ar-" or ends with "-ar"; it is
    false for the null and for the empty tag; true for "ar", "AR", "en-ar",
    "EN-AR", "ar-en" and false for "en" and "fr-ca". *)
Theorem C4_is_arabic_language_code (tag : option text) :
  (is_arabic_language_code unicode_lower tag = true <->
   exists s, tag = Some s /\
     (lower unicode_lower s = text_of_string "ar"
      \/ (exists rest, lower unicode_lower s = text_of_string "ar-" ++ rest)
      \/ (exists front, lower unicode_lower s = front ++ text_of_string "-ar")))
  /\ is_arabic_language_code unicode_lower None = false
  /\ is_arabic_language_code unicode_lower (Some []) = false
  /\ is_arabic_language_code unicode_lower (Some (text_of_string "ar")) = true
  /\ is_arabic_language_code unicode_lower (Some (text_of_string "AR")) = true
  /\ is_arabic_language_code unicode_lower (Some (text_of_string "en-ar")) = true
  /\ is_arabic_language_code unicode_lower (Some (text_of_string "EN-AR")) = true
  /\ is_arabic_language_code unicode_lower (Some (text_of_string "ar-en")) = true
  /\ is_arabic_language_code unicode_lower (Some (text_of_string "en")) = false
  /\ is_arabic_language_code unicode_lower (Some (text_of_string "fr-ca")) = false.
Proof.
  split; [|repeat split; reflexivity].
  unfold is_arabic_language_code. destruct tag as [s|].
  - split.
    + intros H. exists s. split; [reflexivity|].
      destruct s as [|c s]; [discriminate|]. cbn [truthy negb] in H.
      apply orb_true_iff in H as [H|H]; [apply orb_true_iff in H as [H|H]|].
      * left. now apply text_eqb_eq.
      * right; left. now apply startswith_prefix.
      * right; right. now apply endswith_suffix.
    + intros (s' & Hs & H). injection Hs as <-.
      destruct s as [|c s].
      * exfalso. rewrite lower_nil in H.
        destruct H as [H|[[rest H]|[front H]]]; try discriminate.
        destruct front; discriminate.
      * cbn [truthy negb].
        destruct H as [H|[H|H]].
        -- apply text_eqb_eq in H. now rewrite H.
        -- apply startswith_prefix in H. rewrite H, orb_true_r. reflexivity.
        -- apply endswith_suffix in H. rewrite H. apply orb_true_r.
  - split; [discriminate|]. intros (s & Hs & _). discriminate.
Qed.

(** C6.  When the language code is not Arabic, [apply_to_paragraph]
    returns with the paragraph as it was, whatever its unicode buffer
    holds, and with no effect at all. *)
Theorem C6_paragraph_noop_when_not_arabic (ext : capabilities)
    (paragraph : option PdfParagraph) (lang_code : option text) (w : world) :
  is_arabic_language_code unicode_lower lang_code = false ->
  apply_arabic_shaping_to_paragraph unicode_lower ext paragraph lang_code w
  = (Returned paragraph, w).
Proof.
  intros Hlang. unfold apply_arabic_shaping_to_paragraph.
  destruct paragraph as [p|]; [|reflexivity].
  destruct (paragraph_unicode p) as [|u]; [reflexivity|].
  destruct (negb (truthy u)); [reflexivity|].
  now rewrite Hlang.
Qed.


(** C8.  Both adapters assign the unicode attribute only with what
    [shape_text] returned for the buffer and only when that differs from
    the buffer; when the buffer is absent, [None] or empty, or when the
    shaped value equals the buffer, nothing is assigned and the object stays
    as it was. *)
Theorem C8_written_back_only_on_change (ext : capabilities)
    (lang_code : option text) (w : world) :
  (forall paragraph : option PdfParagraph,
     let out :=
       apply_arabic_shaping_to_paragraph unicode_lower ext paragraph lang_code w in
     (buffer_empty (paragraph_buffer paragraph) -> not_assigned paragraph w out)
     /\ (forall u, paragraph_buffer paragraph = Some u ->
           not_assigned paragraph w out
           \/ exists r, fst (shape_text ext u w) = Returned r
                /\ py_eq u r = false
                /\ assigned_once ParagraphUnicode r (with_paragraph_unicode r)
                                 paragraph w out)
     /\ (forall u r, paragraph_buffer paragraph = Some u ->
           fst (shape_text ext u w) = Returned r -> py_eq u r = true ->
           not_assigned paragraph w out))
  /\ (forall composition : option PdfParagraphComposition,
     let out :=
       apply_arabic_shaping_to_composition unicode_lower ext composition lang_code w in
     (buffer_empty (composition_buffer composition) -> not_assigned composition w out)
     /\ (forall u, composition_buffer composition = Some u ->
           not_assigned composition w out
           \/ exists r, fst (shape_text ext u w) = Returned r
                /\ py_eq u r = false
                /\ assigned_once CompositionUnicode r (with_composition_unicode r)
                                 composition w out)
     /\ (forall u r, composition_buffer composition = Some u ->
           fst (shape_text ext u w) = Returned r -> py_eq u r = true ->
           not_assigned composition w out)).
Proof.
  assert (Hidle : forall A (x : A), not_assigned x w (Returned x, w))
    by (intros; split; reflexivity).
  assert (Hraised : forall A (x : A) e, not_assigned x w (Raised e, w))
    by (intros; split; reflexivity).
  split.
  - intros paragraph out. subst out.
    unfold apply_arabic_shaping_to_paragraph, paragraph_buffer.
    destruct paragraph as [p|]; [|idle_case Hidle].
    destruct (paragraph_unicode p) as [|u0]; [idle_case Hidle|].
    destruct (truthy u0) eqn:Htruthy; cbn [negb buffer_empty]; [|idle_case Hidle].
    destruct (is_arabic_language_code unicode_lower lang_code); [|idle_case Hidle].
    pose proof (shape_text_assignments ext u0 w) as Hassign.
    unfold bind, emit, ret.
    destruct (shape_text ext u0 w) as [[r|e] w1] eqn:Hshape; simpl in Hassign.
    + destruct (py_eq u0 r) eqn:Heq; cbn [negb].
      * idle_case (fun A (x : A) => conj Hassign (eq_refl x)).
      * active_case Hshape Heq Hassign.
    + idle_case (fun A (x : A) => conj Hassign (eq_refl x)).
  - intros composition out. subst out.
    unfold apply_arabic_shaping_to_composition, composition_buffer.
    destruct composition as [c|]; [|idle_case Hidle].
    destruct (pdf_same_style_unicode_characters c) as [|[unicode_chars|]];
      [idle_case Hidle | | idle_case Hidle].
    destruct (chars_unicode unicode_chars) as [|u0]; [idle_case Hraised|].
    destruct (truthy u0) eqn:Htruthy; cbn [negb buffer_empty]; [|idle_case Hidle].
    unfold bind at 1, lift.
    destruct (composition_gate unicode_lower lang_code u0) as [[|]|e0];
      [|idle_case Hidle|idle_case Hraised].
    pose proof (shape_text_assignments ext u0 w) as Hassign.
    unfold try_except, bind, emit, ret.
    destruct (shape_text ext u0 w) as [[r|e] w1] eqn:Hshape; simpl in Hassign.
    + destruct (py_eq u0 r) eqn:Heq; cbn [negb].
      * idle_case (fun A (x : A) => conj Hassign (eq_refl x)).
      * active_case Hshape Heq Hassign.
    + destruct (is_Exception e);
        idle_case (fun A (x : A) => conj Hassign (eq_refl x)).
Qed.

End Adapters.


Lemma C6_paragraph_noop_when_not_arabic_witness :
  has_arabic_chars salam = true
  /\ apply_arabic_shaping_to_paragraph ascii_only_lower ext_ok
       (Some {| paragraph_unicode := Attribute (PyStr salam) |})
       (Some (text_of_string "en")) init_world
     = (Returned (Some {| paragraph_unicode := Attribute (PyStr salam) |}),
        init_world).
Proof.
  split; [reflexivity|].
  apply (C6_paragraph_noop_when_not_arabic ascii_only_lower). reflexivity.
Defined.




Lemma C8_written_back_only_on_change_witness :
  not_assigned (with_paragraph_unicode (PyStr hello_world)) init_world
    (apply_arabic_shaping_to_paragraph ascii_only_lower ext_ok
       (with_paragraph_unicode (PyStr hello_world))
       (Some (text_of_string "ar")) init_world).
Proof.
  apply (proj2 (proj2 (proj1 (C8_written_back_only_on_change ascii_only_lower
                                ext_ok (Some (text_of_string "ar")) init_world)
                             (with_paragraph_unicode (PyStr hello_world))))
               (PyStr hello_world) (PyStr hello_world));
    reflexivity.
Defined.

(* ===================================================================== *)
(** ** Further properties of the cache *)
(* ===================================================================== *)

Lemma py_eq_refl (a : pyval) : py_eq a a = true.
Proof.
  destruct a; simpl.
  - reflexivity.
  - now destruct b.
  - apply Z.eqb_refl.
  - apply text_eqb_refl.
  - apply N.eqb_refl.
Qed.

Lemma text_eqb_sym (a b : text) : text_eqb a b = text_eqb b a.
Proof.
  destruct (text_eqb a b) eqn:E1, (text_eqb b a) eqn:E2; trivial.
  - apply text_eqb_eq in E1. subst. now rewrite text_eqb_refl in E2.
  - apply text_eqb_eq in E2. subst. now rewrite text_eqb_refl in E1.
Qed.

Lemma py_eq_sym (a b : pyval) : py_eq a b = py_eq b a.
Proof.
  destruct a, b; simpl; trivial.
  - now destruct b, b0.
  - apply Z.eqb_sym.
  - apply Z.eqb_sym.
  - apply Z.eqb_sym.
  - apply text_eqb_sym.
  - apply N.eqb_sym.
Qed.

Lemma py_eq_trans (a b c : pyval) :
  py_eq a b = true -> py_eq b c = true -> py_eq a c = true.
Proof.
  destruct a as [|x|x|x|x], b as [|y|y|y|y], c as [|z|z|z|z]; simpl;
    try discriminate; trivial;
    rewrite ?Z.eqb_eq, ?N.eqb_eq, ?text_eqb_eq, ?Bool.eqb_true_iff;
    unfold int_of_bool; try congruence;
    repeat match goal with b : bool |- _ => destruct b end;
    try congruence; intros; subst; try reflexivity; try discriminate; lia.
Qed.

Lemma cache_find_eq (k k2 : pyval) (l : list (pyval * pyval)) :
  py_eq k2 k = true -> cache_find k2 l = cache_find k l.
Proof.
  intros H. induction l as [|[k0 v0] l IH]; simpl; [reflexivity|].
  destruct (py_eq k k0) eqn:E.
  - now rewrite (py_eq_trans k2 k k0 H E).
  - destruct (py_eq k2 k0) eqn:E2; [|assumption].
    rewrite py_eq_sym in H. now rewrite (py_eq_trans k k2 k0 H E2) in E.
Qed.

Lemma length_cache_remove (k : pyval) (l : list (pyval * pyval)) (kv : pyval * pyval) :
  cache_find k l = Some kv -> S (List.length (cache_remove k l)) = List.length l.
Proof.
  induction l as [|[k0 v0] l IH]; simpl; [discriminate|].
  destruct (py_eq k k0); [reflexivity|].
  intros H. simpl. now rewrite IH.
Qed.

Lemma length_removelast_pred {A} (l : list A) :
  List.length (removelast l) = Nat.pred (List.length l).
Proof.
  induction l as [|x l IH]; [reflexivity|].
  destruct l as [|y l]; [reflexivity|].
  rewrite removelast_cons2. simpl List.length in *. now rewrite IH.
Qed.

Lemma length_cache_store (n : nat) (k v : pyval) (l : list (pyval * pyval)) :
  (0 < n)%nat -> (List.length l <= n)%nat ->
  (List.length (cache_store n k v l) <= n)%nat.
Proof.
  intros Hn Hl. unfold cache_store. simpl.
  destruct (Nat.leb n (List.length l)) eqn:E.
  - rewrite length_removelast_pred. lia.
  - apply Nat.leb_gt in E. lia.
Qed.

Ltac world_simpl :=
  cbn [fst snd shape_cache trace set_cache push_events entries hits misses
       count_hit count_miss count_miss_store].

Lemma cache_bounded_step (ext : capabilities) (key : pyval) (w : world) :
  (List.length (entries (shape_cache w)) <= maxsize)%nat ->
  (List.length (entries (shape_cache (snd (shape_text ext key w)))) <= maxsize)%nat.
Proof.
  intros H. shape_text_cases ext key w; world_simpl; trivial.
  - cbn [List.length]. now rewrite (length_cache_remove _ _ _ Hfind).
  - apply length_cache_store; [unfold maxsize; lia | assumption].
Qed.

Lemma cache_find_remove_other (k key : pyval) (l : list (pyval * pyval)) :
  cache_find k l = None -> cache_find k (cache_remove key l) = None.
Proof.
  induction l as [|[k0 v0] l IH]; simpl; [reflexivity|].
  destruct (py_eq k k0) eqn:E; [discriminate|].
  intros H. destruct (py_eq key k0); [assumption|].
  simpl. rewrite E. now apply IH.
Qed.

Lemma cache_find_removelast_None (k : pyval) (l : list (pyval * pyval)) :
  cache_find k l = None -> cache_find k (removelast l) = None.
Proof.
  induction l as [|[k0 v0] l IH]; [reflexivity|].
  destruct l as [|kv l]; [reflexivity|].
  rewrite removelast_cons2. remember (kv :: l) as t.
  cbn [cache_find]. destruct (py_eq k k0); [discriminate|]. assumption.
Qed.

Lemma distinct_keys_remove (key : pyval) (l : list (pyval * pyval)) :
  distinct_keys l -> distinct_keys (cache_remove key l).
Proof.
  induction l as [|[k0 v0] l IH]; simpl; [trivial|].
  intros [H0 Hl]. destruct (py_eq key k0); [assumption|].
  simpl. split; [now apply cache_find_remove_other | now apply IH].
Qed.

Lemma distinct_keys_removelast (l : list (pyval * pyval)) :
  distinct_keys l -> distinct_keys (removelast l).
Proof.
  induction l as [|[k0 v0] l IH]; [intros; exact I|].
  destruct l as [|kv l]; [intros; exact I|].
  rewrite removelast_cons2. remember (kv :: l) as t.
  cbn [distinct_keys]. intros [H0 Hl].
  split; [now apply cache_find_removelast_None | now apply IH].
Qed.

(** After the found entry is taken out, no key equal to the looked-up one
    is left. *)
Lemma cache_find_remove_self (key k' v : pyval) (l : list (pyval * pyval)) :
  distinct_keys l -> cache_find key l = Some (k', v) ->
  cache_find k' (cache_remove key l) = None.
Proof.
  induction l as [|[k0 v0] l IH]; simpl; [discriminate|].
  intros [H0 Hl]. destruct (py_eq key k0) eqn:E.
  - intros H. injection H as <- <-. assumption.
  - intros H. simpl.
    destruct (py_eq k' k0) eqn:E'.
    + apply cache_find_In in H as [_ H].
      now rewrite (py_eq_trans key k' k0 H E') in E.
    + now apply IH.
Qed.

Lemma distinct_keys_step (ext : capabilities) (key : pyval) (w : world) :
  distinct_keys (entries (shape_cache w)) ->
  distinct_keys (entries (shape_cache (snd (shape_text ext key w)))).
Proof.
  intros H. shape_text_cases ext key w; world_simpl; trivial.
  - split; [now apply (cache_find_remove_self key k' v) | now apply distinct_keys_remove].
  - unfold cache_store.
    destruct (Nat.leb maxsize (List.length (entries (shape_cache w)))).
    + split; [now apply cache_find_removelast_None | now apply distinct_keys_removelast].
    + split; assumption.
Qed.

(** X1.  The cache never holds more than 1024 entries and never two
    entries under equal keys, after any history of calls of [shape_text],
    whatever the arguments and whatever the libraries do. *)
Theorem cache_bounded_distinct (calls : list (capabilities * pyval)) :
  let stored := entries (shape_cache (run_calls calls init_world)) in
  (List.length stored <= 1024)%nat /\ distinct_keys stored.
Proof.
  cbv zeta.
  assert (H : forall w,
             (List.length (entries (shape_cache w)) <= maxsize)%nat
             /\ distinct_keys (entries (shape_cache w)) ->
             (List.length (entries (shape_cache (run_calls calls w))) <= maxsize)%nat
             /\ distinct_keys (entries (shape_cache (run_calls calls w)))).
  { induction calls as [|[ext key] calls IH]; intros w Hw; [assumption|].
    simpl. apply IH. destruct Hw as [H1 H2].
    split; [now apply cache_bounded_step | now apply distinct_keys_step]. }
  apply H. simpl. split; [lia | trivial].
Qed.

(** X2.  A call that returns leaves its result where the next call finds
    it: the next call of [shape_text] with the same argument, or with one
    that compares equal to it (as [1] does to [True]), returns the same
    value and emits nothing, however the libraries behave by then. *)
Theorem shape_text_memoized (ext1 ext2 : capabilities) (v1 v2 r : pyval) (w : world) :
  fst (shape_text ext1 v1 w) = Returned r ->
  hashable v2 = true ->
  py_eq v2 v1 = true ->
  let w1 := snd (shape_text ext1 v1 w) in
  fst (shape_text ext2 v2 w1) = Returned r
  /\ trace (snd (shape_text ext2 v2 w1)) = trace w1.
Proof.
  intros Hr Hh Heq w1.
  assert (Hfound : exists k', cache_find v2 (entries (shape_cache w1)) = Some (k', r)).
  { subst w1. revert Hr. shape_text_cases ext1 v1 w; world_simpl; try discriminate.
    - intros H. injection H as ->. exists k'.
      apply cache_find_In in Hfind as [_ Hfind].
      cbn [cache_find]. now rewrite (py_eq_trans v2 v1 k' Heq Hfind).
    - intros H. injection H as ->. exists v1.
      unfold cache_store. cbn [cache_find]. now rewrite Heq. }
  destruct Hfound as [k' Hfound].
  change (shape_text ext2 v2 w1)
    with (lru_cache maxsize (shape_text_body ext2) v2 w1).
  rewrite (lru_hit _ _ v2 k' r w1 Hh Hfound). auto.
Qed.

Lemma shape_text_memoized_witness :
  fst (shape_text ext_ok (PyInt 1) (snd (shape_text ext_ok (PyBool true) init_world)))
  = Returned (PyStr (text_of_string "True")).
Proof.
  exact (proj1 (shape_text_memoized ext_ok ext_ok (PyBool true) (PyInt 1)
                  (PyStr (text_of_string "True")) init_world
                  eq_refl eq_refl eq_refl)).
Defined.

(* ===================================================================== *)
(** ** Further properties of [shape_text] *)
(* ===================================================================== *)

(** The undecorated function on an Arabic text, by the outcome of the
    three library calls. *)
Lemma shape_text_body_arabic (ext : capabilities) (s : text) :
  has_arabic_chars s = true ->
  shape_text_body ext (PyStr s) init_world
  = try_except
      (bidi_text <- shaping_pipeline ext s ;; ret (PyStr bidi_text))
      (fun e => emit (WarnShapingFailed (PyStr s) e) ;;; ret (PyStr s)) init_world.
Proof.
  intros H. unfold shape_text_body.
  destruct s as [|c s]; [discriminate|].
  cbn [truthy negb]. now rewrite H.
Qed.

(** X3.  On a call that has to process an Arabic text and whose three
    library calls succeed, the result is reorder(reshape(normalise(T))):
    each library is called once, in that order, each on the previous
    one's result, and no warning is logged. *)
Theorem shape_text_pipeline_order (ext : capabilities) (T normalized reshaped
    bidi_text : text) (w : world) :
  cache_get (PyStr T) (entries (shape_cache w)) = None ->
  has_arabic_chars T = true ->
  normalize_NFKC ext T = Returned normalized ->
  reshape ext normalized = Returned reshaped ->
  get_display_R ext reshaped = Returned bidi_text ->
  fst (shape_text ext (PyStr T) w) = Returned (PyStr bidi_text)
  /\ trace (snd (shape_text ext (PyStr T) w))
     = ExternalCall GetDisplay reshaped :: ExternalCall Reshape normalized
       :: ExternalCall Normalize T :: trace w.
Proof.
  intros Hmiss Harabic Hn Hr Hd.
  destruct (shape_text_miss ext T w Hmiss) as [Hvalue Htrace].
  rewrite Hvalue, Htrace.
  unfold shape_text_value, shape_text_events.
  rewrite (shape_text_body_arabic ext T Harabic).
  unfold try_except, shaping_pipeline, call_external, bind, emit, lift, ret.
  cbn [run_capability trace shape_cache]. rewrite Hn.
  cbn [run_capability trace shape_cache]. rewrite Hr.
  cbn [run_capability trace shape_cache]. rewrite Hd.
  split; reflexivity.
Qed.

Lemma shape_text_pipeline_order_witness :
  fst (shape_text ext_ok (PyStr beh_teh) init_world) = Returned (PyStr (rev beh_teh))
  /\ trace (snd (shape_text ext_ok (PyStr beh_teh) init_world))
     = [ExternalCall GetDisplay beh_teh; ExternalCall Reshape beh_teh;
        ExternalCall Normalize beh_teh].
Proof.
  apply (shape_text_pipeline_order ext_ok beh_teh beh_teh beh_teh (rev beh_teh)
           init_world); reflexivity.
Defined.

(** X4.  An exception that [except Exception] does not catch (Ctrl-C
    inside a library, say) leaves [shape_text] as it is, with no warning
    logged, and nothing is stored for the text: the miss is counted and
    the entries stay as they were, so the next call runs the libraries
    again. *)
Theorem shape_text_interrupt_propagates (ext : capabilities) (T : text) (e : exn)
    (w : world) :
  cache_get (PyStr T) (entries (shape_cache w)) = None ->
  has_arabic_chars T = true ->
  capability_raises ext T e ->
  is_Exception e = false ->
  let w1 := snd (shape_text ext (PyStr T) w) in
  fst (shape_text ext (PyStr T) w) = Raised e
  /\ entries (shape_cache w1) = entries (shape_cache w)
  /\ misses (shape_cache w1) = S (misses (shape_cache w))
  /\ exists made,
       trace w1 = made ++ trace w
       /\ Forall (fun ev => exists c a, ev = ExternalCall c a) made.
Proof.
  intros Hmiss Harabic Hraise Hexc w1. subst w1.
  assert (Hbody : exists made,
             shape_text_body ext (PyStr T) init_world
             = (Raised e, push_events made init_world)
             /\ Forall (fun ev => exists c a, ev = ExternalCall c a) made).
  { rewrite (shape_text_body_arabic ext T Harabic).
    unfold try_except, shaping_pipeline, call_external, bind, emit, lift, ret.
    destruct Hraise as [Hn|nm Hn Hr|nm rs Hn Hr Hd];
      cbn [run_capability trace shape_cache]; rewrite Hn;
      [|cbn [run_capability trace shape_cache]; rewrite Hr
       |cbn [run_capability trace shape_cache]; rewrite Hr;
        cbn [run_capability trace shape_cache]; rewrite Hd];
      rewrite Hexc.
    - exists [ExternalCall Normalize T]. split; [reflexivity|].
      repeat constructor; eauto.
    - exists [ExternalCall Reshape nm; ExternalCall Normalize T].
      split; [reflexivity|]. repeat constructor; eauto.
    - exists [ExternalCall GetDisplay rs; ExternalCall Reshape nm;
              ExternalCall Normalize T].
      split; [reflexivity|]. repeat constructor; eauto. }
  destruct Hbody as (made & Hbody & Hmade).
  assert (Hvalue : shape_text_value ext (PyStr T) = Raised e)
    by (unfold shape_text_value; now rewrite Hbody).
  assert (Hevents : shape_text_events ext (PyStr T) = made)
    by (unfold shape_text_events; rewrite Hbody; simpl; apply app_nil_r).
  apply cache_get_None in Hmiss.
  unfold shape_text.
  rewrite (lru_miss_raised _ _ _ _ (shape_text_body_run ext) (PyStr T) e w
             eq_refl Hmiss Hvalue).
  world_simpl. rewrite Hevents. repeat split; trivial.
  exists made. auto.
Qed.

Lemma shape_text_interrupt_propagates_witness :
  fst (shape_text ext_interrupted (PyStr beh_teh) init_world)
  = Raised (Exn KeyboardInterrupt "")
  /\ entries (shape_cache (snd (shape_text ext_interrupted (PyStr beh_teh) init_world)))
     = [].
Proof.
  assert (Hraise : capability_raises ext_interrupted beh_teh (Exn KeyboardInterrupt ""))
    by (apply (raises_in_reshape ext_interrupted beh_teh _ beh_teh); reflexivity).
  destruct (shape_text_interrupt_propagates ext_interrupted beh_teh _ init_world
              eq_refl eq_refl Hraise eq_refl) as (H1 & H2 & _).
  split; assumption.
Defined.

Lemma cache_texts_step (ext : capabilities) (key : pyval) (w : world) :
  cache_texts w -> cache_texts (snd (shape_text ext key w)).
Proof.
  unfold cache_texts, shape_text.
  apply (lru_keeps_Forall _ _ _ _ (shape_text_body_run ext)).
  intros v _ Hv Hkey. cbn [fst snd] in *.
  destruct key; try contradiction.
  rewrite shape_text_value_str in Hv.
  destruct (has_arabic_chars s); [|injection Hv as <-; exact I].
  destruct (pipeline_result ext s) as [shaped|e]; [injection Hv as <-; exact I|].
  destruct (is_Exception e); [injection Hv as <-; exact I | discriminate].
Qed.

Lemma cache_texts_run (calls : list (capabilities * pyval)) (w : world) :
  cache_texts w -> cache_texts (run_calls calls w).
Proof.
  revert w. induction calls as [|[ext v] calls IH]; intros w Hw; simpl;
    [assumption|].
  apply IH. now apply cache_texts_step.
Qed.

(** X5.  Called on a text, [shape_text] gives back a text or lets through
    an exception that is not an [Exception]; it never returns anything
    else and never raises an [Exception], after any history of calls and
    whatever the libraries do. *)
Theorem shape_text_text_in_text_out (calls : list (capabilities * pyval))
    (ext : capabilities) (T : text) :
  match fst (shape_text ext (PyStr T) (run_calls calls init_world)) with
  | Returned r => is_text r
  | Raised e => is_Exception e = false
  end.
Proof.
  pose proof (cache_texts_run calls init_world (Forall_nil _)) as Hw.
  pose proof (cache_texts_step ext (PyStr T) _ Hw) as Hstep.
  set (w := run_calls calls init_world) in *.
  revert Hstep. unfold cache_texts.
  shape_text_cases ext (PyStr T) w; world_simpl.
  - discriminate.
  - intros H. inversion H as [|? ? Hhead _]; subst.
    apply cache_find_In in Hfind as [_ Heq]. apply py_eq_str_l in Heq. subst k'.
    now apply Hhead.
  - intros H. unfold count_miss_store, cache_store in H.
    inversion H as [|? ? Hhead _]; subst. now apply Hhead.
  - intros _. rewrite shape_text_value_str in Hval.
    destruct (has_arabic_chars T); [|discriminate].
    destruct (pipeline_result ext T) as [shaped|e']; [discriminate|].
    destruct (is_Exception e') eqn:E; [discriminate|]. now injection Hval as <-.
Qed.

(** X6.  A falsy argument that can be hashed and is not cached under an
    equal key ([None], [False], [0], the empty text) comes back as it is,
    not as a string and with no warning: the guard on line 33 runs before
    the coercion of line 39, whose empty-string case is therefore never
    reached.  (A falsy argument that cannot be hashed, an empty list say,
    never gets to line 33: the cache wrapper raises [TypeError].) *)
Theorem shape_text_falsy_unchanged (ext : capabilities) (v : pyval) (w : world) :
  truthy v = false ->
  hashable v = true ->
  cache_find v (entries (shape_cache w)) = None ->
  fst (shape_text ext v w) = Returned v
  /\ trace (snd (shape_text ext v w)) = trace w.
Proof.
  intros Hfalsy Hh Hmiss.
  destruct (shape_text_miss_any ext v w Hh Hmiss) as [Hr Ht].
  rewrite Hr, Ht.
  unfold shape_text_value, shape_text_events, shape_text_body.
  rewrite Hfalsy. split; reflexivity.
Qed.

Lemma shape_text_falsy_unchanged_witness :
  fst (shape_text ext_ok PyNone init_world) = Returned PyNone
  /\ trace (snd (shape_text ext_ok PyNone init_world)) = trace init_world.
Proof.
  apply (shape_text_falsy_unchanged ext_ok PyNone init_world); reflexivity.
Defined.

(** X25.  The empty text is returned unchanged, after any history of
    calls.  A truthy, hashable input that is not a text, whose
    [str()] succeeds and that is not yet cached under an equal key, is
    returned as its string representation, with a warning logged and no
    exception raised. *)
Theorem shape_text_coerces_non_text :
  (forall (calls : list (capabilities * pyval)) (ext : capabilities),
      fst (shape_text ext (PyStr []) (run_calls calls init_world))
      = Returned (PyStr []))
  /\ (forall (ext : capabilities) (v : pyval) (s : text) (w : world),
         isinstance_str v = false -> truthy v = true -> hashable v = true ->
         cache_find v (entries (shape_cache w)) = None ->
         py_str v = Returned s ->
         fst (shape_text ext v w) = Returned (PyStr s)
         /\ trace (snd (shape_text ext v w)) = WarnNonString (py_type v) :: trace w).
Proof.
  split.
  - intros calls ext.
    apply shape_text_passthrough; [|reflexivity].
    apply cache_passthrough_run, cache_passthrough_init.
  - intros ext v s w Hstr Htruthy Hhash Hmiss Hs.
    destruct (shape_text_miss_any ext v w Hhash Hmiss) as [Hr Ht].
    destruct (shape_text_body_non_str ext v s Hstr Htruthy Hs) as [Hv He].
    rewrite Hr, Ht, Hv, He. auto.
Qed.

Lemma shape_text_coerces_non_text_witness :
  fst (shape_text ext_ok (PyInt (-15)) init_world)
  = Returned (PyStr (text_of_string "-15"))
  /\ trace (snd (shape_text ext_ok (PyInt (-15)) init_world))
     = WarnNonString int_t :: trace init_world.
Proof.
  apply (proj2 shape_text_coerces_non_text ext_ok (PyInt (-15)) (text_of_string "-15")
               init_world); reflexivity.
Defined.

(** X26.  The coercion of line 39 stands before the [try] of line 41: when
    [str()] raises for a truthy, hashable argument that is not a text (an
    [int] of more than 4300 digits, say) and the call has to run the
    function, the exception leaves [shape_text] whatever its class, after
    the warning has been logged, and nothing is stored. *)
Theorem shape_text_str_failure_propagates (ext : capabilities) (v : pyval)
    (e : exn) (w : world) :
  isinstance_str v = false -> truthy v = true -> hashable v = true ->
  cache_find v (entries (shape_cache w)) = None ->
  py_str v = Raised e ->
  let w1 := snd (shape_text ext v w) in
  fst (shape_text ext v w) = Raised e
  /\ trace w1 = WarnNonString (py_type v) :: trace w
  /\ entries (shape_cache w1) = entries (shape_cache w).
Proof.
  intros Hstr Htruthy Hhash Hmiss Hs w1. subst w1.
  assert (Hbody : shape_text_value ext v = Raised e
                  /\ shape_text_events ext v = [WarnNonString (py_type v)]).
  { unfold shape_text_value, shape_text_events, shape_text_body.
    rewrite Htruthy. cbn [negb].
    destruct v; try discriminate;
      unfold bind, emit, lift, ret; cbn [fst snd trace]; rewrite Hs; auto. }
  destruct Hbody as [Hvalue Hevents].
  unfold shape_text.
  rewrite (lru_miss_raised _ _ _ _ (shape_text_body_run ext) v e w
             Hhash Hmiss Hvalue).
  world_simpl. rewrite Hevents. repeat split.
Qed.

Lemma shape_text_str_failure_propagates_witness :
  fst (shape_text ext_ok (PyInt (10 ^ 4300)) init_world)
  = Raised (Exn ValueError "Exceeds the limit for integer string conversion").
Proof.
  refine (proj1 (shape_text_str_failure_propagates ext_ok (PyInt (10 ^ 4300))
                   (Exn ValueError "Exceeds the limit for integer string conversion")
                   init_world eq_refl _ eq_refl eq_refl _)).
  - vm_compute. reflexivity.
  - vm_compute. reflexivity.
Defined.

(** X7.  A text whose only Arabic code points are presentation forms of
    U+FE70-U+FEFF is reported as shaped by [is_arabic_shaped], yet
    [shape_text] does not treat it as Arabic: it is returned as it is, with
    no normalisation, reshaping or reordering, after any history of
    calls. *)
Theorem forms_b_shaped_but_passed_through (calls : list (capabilities * pyval))
    (ext : capabilities) (T : text) :
  (exists c, In c T /\ 0xFE70 <= c <= 0xFEFF) ->
  (forall c, In c T -> ~ (0x0600 <= c <= 0x06FF) /\ ~ (0xFB50 <= c <= 0xFDFF)) ->
  let w := run_calls calls init_world in
  is_arabic_shaped (Some T) = true
  /\ fst (shape_text ext (PyStr T) w) = Returned (PyStr T)
  /\ trace (snd (shape_text ext (PyStr T) w)) = trace w.
Proof.
  intros (c & Hc & Hrange) Hnone w. split.
  - unfold is_arabic_shaped.
    destruct T as [|c0 T]; [contradiction|]. cbn [truthy negb].
    apply existsb_exists. exists c. split; [assumption|].
    apply orb_true_iff. right. unfold in_range.
    apply andb_true_iff. split; apply N.leb_le; lia.
  - apply shape_text_passthrough.
    + apply cache_passthrough_run, cache_passthrough_init.
    + now apply has_arabic_chars_false.
Qed.

Lemma forms_b_shaped_but_passed_through_witness :
  is_arabic_shaped (Some alef_isolated) = true
  /\ fst (shape_text ext_ok (PyStr alef_isolated) init_world)
     = Returned (PyStr alef_isolated)
  /\ trace (snd (shape_text ext_ok (PyStr alef_isolated) init_world))
     = trace init_world.
Proof.
  apply (forms_b_shaped_but_passed_through [] ext_ok alef_isolated).
  - exists 0xFE8D. split; [now left | lia].
  - intros c [<-|[]]. split; lia.
Defined.

(* ===================================================================== *)
(** ** Further properties of the language-tag test *)
(* ===================================================================== *)

Section LanguageTags.

Variable unicode_lower : text -> text.

(** X8.  On ASCII tags the test ignores case: two tags that agree after
    lower-casing their letters A-Z get the same answer. *)
Theorem is_arabic_language_code_ignores_case (s t : text) :
  forallb is_ascii s = true -> forallb is_ascii t = true ->
  map ascii_lower s = map ascii_lower t ->
  is_arabic_language_code unicode_lower (Some s)
  = is_arabic_language_code unicode_lower (Some t).
Proof.
  intros Hs Ht Heq. unfold is_arabic_language_code, lower.
  rewrite Hs, Ht, Heq.
  destruct s, t; try discriminate; reflexivity.
Qed.

(** X9.  A tag whose lower-cased form has no hyphen is Arabic only when
    that form is exactly "ar": "ara", "arabic" or "arz" are not. *)
Theorem is_arabic_language_code_without_hyphen (s : text) :
  ~ In 45 (lower unicode_lower s) ->
  (is_arabic_language_code unicode_lower (Some s) = true
   <-> lower unicode_lower s = text_of_string "ar").
Proof.
  intros Hhyphen. unfold is_arabic_language_code.
  assert (Hstart : startswith (lower unicode_lower s) (text_of_string "ar-") = false).
  { destruct (startswith _ _) eqn:E; [|reflexivity].
    apply startswith_prefix in E as [rest E]. exfalso. apply Hhyphen.
    rewrite E. simpl. auto. }
  assert (Hend : endswith (lower unicode_lower s) (text_of_string "-ar") = false).
  { destruct (endswith _ _) eqn:E; [|reflexivity].
    apply endswith_suffix in E as [front E]. exfalso. apply Hhyphen.
    rewrite E. apply in_or_app. right. simpl. auto. }
  destruct s as [|c s].
  - rewrite lower_nil. simpl. split; discriminate.
  - cbn [truthy negb]. rewrite Hstart, Hend, !orb_false_r.
    apply text_eqb_eq.
Qed.

End LanguageTags.

Lemma is_arabic_language_code_ignores_case_witness :
  is_arabic_language_code ascii_only_lower (Some (text_of_string "EN-AR"))
  = is_arabic_language_code ascii_only_lower (Some (text_of_string "en-Ar")).
Proof.
  apply is_arabic_language_code_ignores_case; reflexivity.
Defined.

Lemma is_arabic_language_code_without_hyphen_witness :
  is_arabic_language_code ascii_only_lower (Some (text_of_string "Arabic")) = true
  <-> lower ascii_only_lower (text_of_string "Arabic") = text_of_string "ar".
Proof.
  apply is_arabic_language_code_without_hyphen.
  vm_compute. intros H.
  repeat (destruct H as [H|H]; [discriminate H|]). exact H.
Defined.

(* ===================================================================== *)
(** ** Properties of the text adapter and the comparison printer *)
(* ===================================================================== *)

Section TextAdapterFacts.

Variable unicode_lower : text -> text.
Variable isspace : codepoint -> bool.
Variable ext : capabilities.
Variable default_reshape : text -> outcome text.

(** The comparison printer lets no [Exception] out. *)
Lemma comparison_contains_exceptions (txt lang_code : option text) (e : exn) :
  fst (print_arabic_shaping_comparison unicode_lower ext default_reshape txt lang_code)
  = Raised e -> is_Exception e = false.
Proof.
  unfold print_arabic_shaping_comparison.
  destruct txt as [s|]; [|discriminate].
  destruct (negb (truthy (PyStr s)) || _); [discriminate|].
  destruct (default_reshape s) as [shaped|e0].
  - destruct (get_display_R ext shaped) as [d|e1]; [discriminate|].
    destruct (is_Exception e1) eqn:E; [discriminate|].
    intros H. now injection H as <-.
  - destruct (is_Exception e0) eqn:E; [discriminate|].
    intros H. now injection H as <-.
Qed.

(** X10.  [apply_arabic_shaping_to_text] never raises an [Exception]:
    whatever the text, the language code, the debug flag, the cache and
    the libraries, it returns, or lets through an exception that is not an
    [Exception]. *)
Theorem text_adapter_contains_exceptions (txt : pyval) (lang_code : option text)
    (debug_print : bool) (w : world) :
  match fst (fst (apply_arabic_shaping_to_text unicode_lower isspace ext
                    default_reshape txt lang_code debug_print w)) with
  | Returned _ => True
  | Raised e => is_Exception e = false
  end.
Proof.
  unfold apply_arabic_shaping_to_text.
  destruct (negb (truthy txt)); [exact I|].
  destruct (text_adapter_attempt _ _ _ _ _ _ _ _) as [[[r|e] w1] out];
    cbn [fst]; [exact I|].
  destruct (is_Exception e) eqn:E; cbn [fst]; [exact I | exact E].
Qed.

(** X11.  When [shape_text] raises an [Exception] for the argument, as it
    does for an unhashable one, the text adapter under an Arabic language
    code logs its warning and returns the argument itself. *)
Theorem text_adapter_falls_back (txt : pyval) (lang_code : option text)
    (debug_print : bool) (w : world) (e : exn) :
  truthy txt = true ->
  is_arabic_language_code unicode_lower lang_code = true ->
  fst (shape_text ext txt w) = Raised e ->
  is_Exception e = true ->
  apply_arabic_shaping_to_text unicode_lower isspace ext default_reshape
    txt lang_code debug_print w
  = (Returned txt, snd (shape_text ext txt w), [WarnTextShapingFailed e]).
Proof.
  intros Ht Hlang Hr He.
  unfold apply_arabic_shaping_to_text, text_adapter_attempt.
  rewrite Ht, Hlang. cbn [negb].
  destruct (shape_text ext txt w) as [[r|e0] w1]; simpl in Hr; [discriminate|].
  injection Hr as ->. now rewrite He.
Qed.

(** X12.  Under a language code that is not Arabic, or for a falsy
    argument, the text adapter returns the argument and does nothing else:
    no call of [shape_text], no cache entry, no output. *)
Theorem text_adapter_noop (txt : pyval) (lang_code : option text)
    (debug_print : bool) (w : world) :
  truthy txt = false \/ is_arabic_language_code unicode_lower lang_code = false ->
  apply_arabic_shaping_to_text unicode_lower isspace ext default_reshape
    txt lang_code debug_print w
  = (Returned txt, w, []).
Proof.
  intros H. unfold apply_arabic_shaping_to_text, text_adapter_attempt.
  destruct (truthy txt); cbn [negb]; [|reflexivity].
  destruct H as [H|H]; [discriminate|]. now rewrite H.
Qed.

(** X13.  For a text, the debug flag changes neither the value returned
    nor the cache and log; it only adds the comparison's lines to the
    output - as long as the comparison itself is not interrupted. *)
Theorem text_adapter_debug_transparent (s : text) (lang_code : option text)
    (w : world) :
  (forall e,
      fst (print_arabic_shaping_comparison unicode_lower ext default_reshape
             (Some s) lang_code) <> Raised e) ->
  fst (apply_arabic_shaping_to_text unicode_lower isspace ext default_reshape
         (PyStr s) lang_code true w)
  = fst (apply_arabic_shaping_to_text unicode_lower isspace ext default_reshape
           (PyStr s) lang_code false w).
Proof.
  intros Hcmp. unfold apply_arabic_shaping_to_text, text_adapter_attempt.
  destruct (negb (truthy (PyStr s))); [reflexivity|].
  destruct (is_arabic_language_code unicode_lower lang_code); [|reflexivity].
  destruct (shape_text ext (PyStr s) w) as [[r|e] w1].
  - destruct (truthy (PyStr (strip isspace s))); [|reflexivity].
    destruct (print_arabic_shaping_comparison _ _ _ _ _) as [[r'|e'] out];
      [reflexivity|].
    now destruct (Hcmp e').
  - destruct (is_Exception e); reflexivity.
Qed.

(** X14.  For an [int] or a [bool] the debug flag does change the
    result: neither has a [strip] method, [text.strip()] raises
    [AttributeError], and the adapter falls back to the argument itself,
    where without the flag it returns what [shape_text] made of it (its
    string representation). *)
Theorem text_adapter_debug_non_text (v r : pyval) (lang_code : option text)
    (w : world) :
  py_type v = int_t \/ py_type v = bool_t ->
  truthy v = true ->
  is_arabic_language_code unicode_lower lang_code = true ->
  fst (shape_text ext v w) = Returned r ->
  fst (fst (apply_arabic_shaping_to_text unicode_lower isspace ext default_reshape
              v lang_code false w)) = Returned r
  /\ fst (fst (apply_arabic_shaping_to_text unicode_lower isspace ext default_reshape
                 v lang_code true w)) = Returned v.
Proof.
  intros Htype Ht Hlang Hr.
  unfold apply_arabic_shaping_to_text, text_adapter_attempt.
  rewrite Ht, Hlang. cbn [negb].
  destruct (shape_text ext v w) as [[r0|e0] w1]; simpl in Hr; [|discriminate].
  injection Hr as ->.
  destruct v; destruct Htype as [Htype|Htype]; try discriminate Htype;
    split; reflexivity.
Qed.

(** X15.  The comparison printer shows what [shape_text] returns when
    the NFKC step leaves the text as it is and the library's default
    reshaper agrees on it with the configured one: for an Arabic text,
    under an Arabic language code and with the pipeline succeeding, the
    printer returns the value a processing call of [shape_text] returns. *)
Theorem comparison_agrees_with_shape_text (s shown : text) (lang_code : option text)
    (w : world) :
  cache_get (PyStr s) (entries (shape_cache w)) = None ->
  has_arabic_chars s = true ->
  is_arabic_language_code unicode_lower lang_code = true ->
  normalize_NFKC ext s = Returned s ->
  default_reshape s = reshape ext s ->
  pipeline_result ext s = Returned shown ->
  fst (print_arabic_shaping_comparison unicode_lower ext default_reshape
         (Some s) lang_code)
  = fst (shape_text ext (PyStr s) w).
Proof.
  intros Hmiss Harabic Hlang Hn Hsame Hp.
  destruct (shape_text_miss ext s w Hmiss) as [-> _].
  rewrite shape_text_value_str, Harabic, Hp.
  unfold pipeline_result in Hp. rewrite Hn in Hp.
  unfold print_arabic_shaping_comparison.
  assert (Hs : s <> []) by (intros ->; discriminate).
  rewrite (truthy_str s Hs), Hlang, Hsame. cbn [negb orb].
  destruct (reshape ext s) as [reshaped|e]; [|discriminate].
  now rewrite Hp.
Qed.

(** X16.  Unlike [shape_text], the comparison printer does not look for
    Arabic code points: under an Arabic language code it reshapes and
    reorders a text that has none, which [shape_text] returns as it is. *)
Theorem comparison_shapes_non_arabic_text (calls : list (capabilities * pyval))
    (s reshaped shown : text) (lang_code : option text) :
  s <> [] ->
  has_arabic_chars s = false ->
  is_arabic_language_code unicode_lower lang_code = true ->
  default_reshape s = Returned reshaped ->
  get_display_R ext reshaped = Returned shown ->
  fst (print_arabic_shaping_comparison unicode_lower ext default_reshape
         (Some s) lang_code) = Returned (PyStr shown)
  /\ fst (shape_text ext (PyStr s) (run_calls calls init_world)) = Returned (PyStr s).
Proof.
  intros Hs Harabic Hlang Hr Hd. split.
  - unfold print_arabic_shaping_comparison.
    now rewrite (truthy_str s Hs), Hlang, Hr, Hd.
  - apply shape_text_passthrough; [|assumption].
    apply cache_passthrough_run, cache_passthrough_init.
Qed.

End TextAdapterFacts.

Lemma text_adapter_falls_back_witness :
  apply_arabic_shaping_to_text ascii_only_lower ascii_isspace ext_ok reshape_identity
    (PyObject unhashable_object) (Some (text_of_string "ar")) false init_world
  = (Returned (PyObject unhashable_object), init_world,
     [WarnTextShapingFailed (Exn TypeError "unhashable type")]).
Proof.
  apply (text_adapter_falls_back ascii_only_lower ascii_isspace ext_ok
           reshape_identity (PyObject unhashable_object)
           (Some (text_of_string "ar")) false init_world
           (Exn TypeError "unhashable type")); reflexivity.
Defined.

Lemma text_adapter_noop_witness :
  apply_arabic_shaping_to_text ascii_only_lower ascii_isspace ext_ok reshape_identity
    (PyStr salam) (Some (text_of_string "en")) true init_world
  = (Returned (PyStr salam), init_world, []).
Proof.
  apply text_adapter_noop. right. reflexivity.
Defined.

Lemma text_adapter_debug_transparent_witness :
  fst (apply_arabic_shaping_to_text ascii_only_lower ascii_isspace ext_ok
         reshape_identity (PyStr salam) en_ar true init_world)
  = fst (apply_arabic_shaping_to_text ascii_only_lower ascii_isspace ext_ok
           reshape_identity (PyStr salam) en_ar false init_world).
Proof.
  apply text_adapter_debug_transparent. intros e. discriminate.
Defined.

Lemma text_adapter_debug_non_text_witness :
  fst (fst (apply_arabic_shaping_to_text ascii_only_lower ascii_isspace ext_ok
              reshape_identity (PyInt 5) en_ar false init_world))
  = Returned (PyStr (text_of_string "5"))
  /\ fst (fst (apply_arabic_shaping_to_text ascii_only_lower ascii_isspace ext_ok
                 reshape_identity (PyInt 5) en_ar true init_world))
     = Returned (PyInt 5).
Proof.
  apply text_adapter_debug_non_text; try reflexivity. left. reflexivity.
Defined.

Lemma comparison_agrees_with_shape_text_witness :
  fst (print_arabic_shaping_comparison ascii_only_lower ext_ok reshape_identity
         (Some salam) en_ar)
  = fst (shape_text ext_ok (PyStr salam) init_world).
Proof.
  apply (comparison_agrees_with_shape_text ascii_only_lower ext_ok reshape_identity
           salam (rev salam) en_ar init_world); reflexivity.
Defined.

Lemma comparison_shapes_non_arabic_text_witness :
  fst (print_arabic_shaping_comparison ascii_only_lower ext_ok reshape_identity
         (Some hello_world) en_ar) = Returned (PyStr (rev hello_world))
  /\ fst (shape_text ext_ok (PyStr hello_world) (run_calls [] init_world))
     = Returned (PyStr hello_world).
Proof.
  apply (comparison_shapes_non_arabic_text ascii_only_lower ext_ok reshape_identity
           [] hello_world hello_world (rev hello_world) en_ar);
    try reflexivity.
  unfold hello_world. discriminate.
Defined.

(* ===================================================================== *)
(** ** Further properties of the adapters *)
(* ===================================================================== *)

Section AdapterFacts.

Variable unicode_lower : text -> text.
Variable isspace : codepoint -> bool.
Variable default_reshape : text -> outcome text.

(** X17.  Content without Arabic code points is never changed: for a
    text with no code point in U+0600-U+06FF or U+FB50-U+FDFF, whatever
    the language code, the text adapter returns it, and the paragraph and
    composition adapters leave the object as it is, assign nothing and
    print nothing - after any history of calls. *)
Theorem adapters_leave_non_arabic_content (calls : list (capabilities * pyval))
    (ext : capabilities) (T : text) (lang_code : option text) :
  has_arabic_chars T = false ->
  let w := run_calls calls init_world in
  fst (fst (apply_arabic_shaping_to_text unicode_lower isspace ext default_reshape
              (PyStr T) lang_code false w)) = Returned (PyStr T)
  /\ (let out := apply_arabic_shaping_to_paragraph unicode_lower ext
                   (with_paragraph_unicode (PyStr T)) lang_code w in
      fst out = Returned (with_paragraph_unicode (PyStr T))
      /\ trace (snd out) = trace w)
  /\ (let out := apply_arabic_shaping_to_composition unicode_lower ext
                   (with_composition_unicode (PyStr T)) lang_code w in
      fst out = Returned (with_composition_unicode (PyStr T))
      /\ trace (snd out) = trace w).
Proof.
  intros Harabic w. cbv zeta.
  assert (Hw : cache_passthrough w)
    by apply cache_passthrough_run, cache_passthrough_init.
  destruct (shape_text_passthrough ext T w Hw Harabic) as [Hr Ht].
  assert (Hgate : composition_gate unicode_lower lang_code (PyStr T)
                  = Returned (is_arabic_language_code unicode_lower lang_code)).
  { unfold composition_gate, iter_any_in_range.
    destruct (is_arabic_language_code unicode_lower lang_code); [reflexivity|].
    unfold has_arabic_chars in Harabic. apply orb_false_iff in Harabic as [-> _].
    reflexivity. }
  unfold apply_arabic_shaping_to_text, text_adapter_attempt,
    apply_arabic_shaping_to_paragraph, apply_arabic_shaping_to_composition,
    with_paragraph_unicode, with_composition_unicode.
  cbn [paragraph_unicode pdf_same_style_unicode_characters chars_unicode].
  rewrite Hgate.
  destruct (negb (truthy (PyStr T))); [repeat split; reflexivity|].
  destruct (is_arabic_language_code unicode_lower lang_code);
    [|repeat split; reflexivity].
  unfold try_except, bind, lift, ret.
  destruct (shape_text ext (PyStr T) w) as [[r|e] w1];
    cbn [fst snd] in Hr, Ht; [|discriminate].
  injection Hr as ->. rewrite py_eq_str_refl. cbn [negb fst snd].
  repeat split; assumption.
Qed.

(** X18.  Once its gate is passed, the composition adapter lets no
    [Exception] out: for a composition whose buffer is a text, or under an
    Arabic language code, it returns, or lets through an exception that is
    not an [Exception]; when [shape_text] raised an [Exception] it logs a
    warning and leaves the composition as it was. *)
Theorem composition_adapter_contains_exceptions (ext : capabilities)
    (composition : option PdfParagraphComposition) (u : pyval)
    (lang_code : option text) (w : world) :
  composition_buffer composition = Some u ->
  is_text u \/ is_arabic_language_code unicode_lower lang_code = true ->
  let out := apply_arabic_shaping_to_composition unicode_lower ext composition
               lang_code w in
  match fst out with
  | Returned _ => True
  | Raised e => is_Exception e = false
  end
  /\ (forall e, fst (shape_text ext u w) = Raised e -> is_Exception e = true ->
        truthy u = true ->
        out = (Returned composition,
               push_events [WarnCompositionFailed u e] (snd (shape_text ext u w)))).
Proof.
  intros Hbuf Hgate. cbv zeta.
  unfold apply_arabic_shaping_to_composition, composition_buffer in *.
  destruct composition as [c|]; [|discriminate].
  destruct (pdf_same_style_unicode_characters c) as [|[unicode_chars|]];
    try discriminate.
  destruct (chars_unicode unicode_chars) as [|u0]; [discriminate|].
  injection Hbuf as ->.
  destruct (truthy u) eqn:Htruthy; cbn [negb];
    [|split; [exact I | discriminate]].
  assert (Hopen : exists b, composition_gate unicode_lower lang_code u = Returned b).
  { unfold composition_gate, iter_any_in_range.
    destruct (is_arabic_language_code unicode_lower lang_code); [eauto|].
    destruct Hgate as [Hu|Hu]; [|discriminate].
    destruct u; try contradiction. eauto. }
  destruct Hopen as [b Hopen]. rewrite Hopen.
  unfold bind at 1, lift. cbv iota beta.
  destruct b.
  - unfold try_except, bind, emit, ret.
    destruct (shape_text ext u w) as [[r|e] w1]; cbn [fst snd].
    + destruct (negb (py_eq u r)); cbn [fst]; split; try exact I;
        intros e He; discriminate He.
    + destruct (is_Exception e) eqn:E; cbn [fst]; split; try exact I; trivial.
      * intros e0 He0 _ _. injection He0 as <-. reflexivity.
      * intros e0 He0 HE. injection He0 as <-. congruence.
  - split; [exact I|].
    intros e He HE _. exfalso.
    (* the gate is shut only for a text without Arabic code points under a
       non-Arabic code; [shape_text] cannot raise an [Exception] on a text *)
    assert (Htext : is_text u).
    { destruct Hgate as [Hu|Hu]; [assumption|].
      unfold composition_gate in Hopen. rewrite Hu in Hopen. discriminate. }
    destruct u; try contradiction.
    revert He. shape_text_cases ext (PyStr s) w; world_simpl; try discriminate.
    intros H. injection H as ->.
    rewrite shape_text_value_str in Hval.
    destruct (has_arabic_chars s); [|discriminate].
    destruct (pipeline_result ext s); [discriminate|].
    destruct (is_Exception e0) eqn:E0; [discriminate|].
    injection Hval as ->. congruence.
Qed.

(** X19.  The paragraph adapter has no such guard: under an Arabic
    language code, an exception of [shape_text] on the buffer - the
    [TypeError] for an unhashable buffer, for one - leaves the adapter,
    with the paragraph as it was. *)
Theorem paragraph_adapter_propagates (ext : capabilities)
    (paragraph : option PdfParagraph) (u : pyval) (lang_code : option text)
    (w : world) (e : exn) :
  paragraph_buffer paragraph = Some u ->
  truthy u = true ->
  is_arabic_language_code unicode_lower lang_code = true ->
  fst (shape_text ext u w) = Raised e ->
  apply_arabic_shaping_to_paragraph unicode_lower ext paragraph lang_code w
  = (Raised e, snd (shape_text ext u w)).
Proof.
  intros Hbuf Ht Hlang Hr.
  unfold apply_arabic_shaping_to_paragraph, paragraph_buffer in *.
  destruct paragraph as [p|]; [|discriminate].
  destruct (paragraph_unicode p) as [|u0]; [discriminate|].
  injection Hbuf as ->. rewrite Ht, Hlang. cbn [negb].
  unfold bind.
  destruct (shape_text ext u w) as [[r|e0] w1]; simpl in Hr; [discriminate|].
  now injection Hr as ->.
Qed.

End AdapterFacts.

Lemma adapters_leave_non_arabic_content_witness :
  fst (fst (apply_arabic_shaping_to_text ascii_only_lower ascii_isspace ext_ok
              reshape_identity (PyStr hello_world) (Some (text_of_string "ar"))
              false init_world)) = Returned (PyStr hello_world).
Proof.
  exact (proj1 (adapters_leave_non_arabic_content ascii_only_lower ascii_isspace
                  reshape_identity [] ext_ok hello_world
                  (Some (text_of_string "ar")) eq_refl)).
Defined.

Lemma composition_adapter_contains_exceptions_witness :
  apply_arabic_shaping_to_composition ascii_only_lower ext_ok
    (with_composition_unicode (PyObject unhashable_object))
    (Some (text_of_string "ar")) init_world
  = (Returned (with_composition_unicode (PyObject unhashable_object)),
     push_events [WarnCompositionFailed (PyObject unhashable_object)
                    (Exn TypeError "unhashable type")] init_world).
Proof.
  exact (proj2 (composition_adapter_contains_exceptions ascii_only_lower ext_ok
                  (with_composition_unicode (PyObject unhashable_object))
                  (PyObject unhashable_object) (Some (text_of_string "ar"))
                  init_world eq_refl (or_intror eq_refl))
               (Exn TypeError "unhashable type") eq_refl eq_refl eq_refl).
Defined.

Lemma paragraph_adapter_propagates_witness :
  apply_arabic_shaping_to_paragraph ascii_only_lower ext_ok
    (with_paragraph_unicode (PyObject unhashable_object))
    (Some (text_of_string "ar")) init_world
  = (Raised (Exn TypeError "unhashable type"), init_world).
Proof.
  apply (paragraph_adapter_propagates ascii_only_lower ext_ok
           (with_paragraph_unicode (PyObject unhashable_object))
           (PyObject unhashable_object) (Some (text_of_string "ar")) init_world);
    reflexivity.
Defined.

(* ===================================================================== *)
(** ** The singleton *)
(* ===================================================================== *)

Section Singleton.

Variable R : Type.
Variable make_reshaper : list (string * config_value) -> outcome R.

Lemma construct_times_registered (n : nat) (cls : shaper_class R)
    (self : shaper_object R) :
  _instance cls = Some self -> construct_times make_reshaper n cls = cls.
Proof.
  intros H. induction n as [|n IH]; [reflexivity|].
  simpl. unfold new_ArabicTextShaper. now rewrite H.
Qed.

(** X20.  However often [ArabicTextShaper()] is called, the library's
    reshaper is built once, with the configuration of [_initialize], and
    every call returns the one object holding it. *)
Theorem singleton_built_once (r : R) (n : nat) :
  make_reshaper shaping_configuration = Returned r ->
  let cls := construct_times make_reshaper (S n) fresh_class in
  let self := {| configuration := Some shaping_configuration; reshaper := Some r |} in
  reshapers_built cls = 1%nat
  /\ _instance cls = Some self
  /\ new_ArabicTextShaper make_reshaper cls = (Returned self, cls).
Proof.
  intros Hr cls self. subst cls.
  assert (Hfirst : new_ArabicTextShaper make_reshaper fresh_class
                   = (Returned self,
                      {| _instance := Some self; reshapers_built := 1 |}))
    by (unfold new_ArabicTextShaper; cbn [fresh_class _instance]; now rewrite Hr).
  cbn [construct_times]. rewrite Hfirst. cbn [snd].
  rewrite (construct_times_registered n
             {| _instance := Some self; reshapers_built := 1 |} self eq_refl).
  repeat split.
Qed.


End Singleton.

Lemma singleton_built_once_witness :
  reshapers_built (construct_times (fun _ => Returned tt) 3 fresh_class) = 1%nat.
Proof.
  exact (proj1 (singleton_built_once unit (fun _ => Returned tt) tt 2 eq_refl)).
Defined.


(* ===================================================================== *)
(** ** The command-line tool *)
(* ===================================================================== *)

Section CommandLineFacts.

Variable unicode_lower : text -> text.
Variable ext : capabilities.
Variable default_reshape : text -> outcome text.
Variable read_file : text -> outcome text.

(** X22.  Interactive mode has no way out at the end of input: as long
    as no line says "exit" and Ctrl-C is not pressed, the loop is still
    running after any number of prompts, also once standard input is used
    up - each further prompt then prints an error line and the loop goes
    on. *)
Theorem interactive_loop_ignores_end_of_input (fuel : nat) (stdin : list stdin_event) :
  uninterrupted unicode_lower ext default_reshape ->
  Forall (stays unicode_lower) stdin ->
  fst (interactive_loop unicode_lower ext default_reshape fuel stdin) = StillRunning
  /\ snd (interactive_loop unicode_lower ext default_reshape fuel [])
     = List.concat (repeat [Prompt; EndOfInputError] fuel).
Proof.
  intros Hlibs Hstdin. split.
  - revert stdin Hstdin. induction fuel as [|fuel IH]; intros stdin Hstdin;
      [reflexivity|].
    cbn [interactive_loop].
    destruct stdin as [|[s|] rest].
    + specialize (IH [] (Forall_nil _)).
      destruct (interactive_loop _ _ _ fuel []). exact IH.
    + inversion Hstdin as [|? ? Hs Hrest]; subst. simpl in Hs. rewrite Hs.
      specialize (IH rest Hrest).
      destruct (negb (truthy (PyStr s))).
      * destruct (interactive_loop _ _ _ fuel rest). exact IH.
      * destruct (compare_default _ _ _ s) as [[r|e] lines] eqn:Hc.
        -- destruct (interactive_loop _ _ _ fuel rest). exact IH.
        -- exfalso. apply (Hlibs s e). now rewrite Hc.
    + inversion Hstdin as [|? ? Hs _]; subst. contradiction Hs.
  - induction fuel as [|fuel IH]; [reflexivity|].
    cbn [interactive_loop repeat List.concat].
    destruct (interactive_loop _ _ _ fuel []) as [r out]. simpl in IH |- *.
    now rewrite IH.
Qed.

(** X23.  Interactive mode ends at the first Ctrl-C or the first line
    that lower-cases to "exit", whatever follows it: when the lines typed
    before ask for nothing of the kind, [length before + 1] prompts are
    enough for the loop to finish. *)
Theorem interactive_loop_exits (before rest : list stdin_event) (quit : stdin_event)
    (extra : nat) :
  uninterrupted unicode_lower ext default_reshape ->
  Forall (stays unicode_lower) before ->
  quit = CtrlC
  \/ (exists s, quit = TypedLine s
                /\ lower unicode_lower s = text_of_string "exit") ->
  fst (interactive_loop unicode_lower ext default_reshape
         (S (List.length before + extra)) (before ++ quit :: rest))
  = Finished.
Proof.
  intros Hlibs Hbefore Hquit.
  induction before as [|ev before IH].
  - cbn [List.length Nat.add app interactive_loop].
    destruct Hquit as [->|(s & -> & Hs)]; [reflexivity|].
    now rewrite Hs.
  - inversion Hbefore as [|? ? Hev Hrest]; subst. specialize (IH Hrest).
    cbn [List.length Nat.add app].
    remember (S (List.length before + extra)) as fuel.
    cbn [interactive_loop].
    destruct ev as [s|]; [|contradiction Hev].
    simpl in Hev. rewrite Hev.
    destruct (negb (truthy (PyStr s))).
    + destruct (interactive_loop _ _ _ fuel _). exact IH.
    + destruct (compare_default _ _ _ s) as [[r|e] lines] eqn:Hc.
      * destruct (interactive_loop _ _ _ fuel _). exact IH.
      * exfalso. apply (Hlibs s e). now rewrite Hc.
Qed.

(** X24.  No [Exception] leaves [main]: whatever the arguments, the file
    system, the input and the libraries, a run returns, is still in its
    loop, or ends on an exception that is not an [Exception]. *)
Theorem main_contains_exceptions (fuel : nat) (args : cli_args)
    (stdin : list stdin_event) :
  match fst (main unicode_lower ext default_reshape read_file fuel args stdin) with
  | Propagated e => is_Exception e = false
  | _ => True
  end.
Proof.
  assert (Hloop : forall fuel stdin,
             match fst (interactive_loop unicode_lower ext default_reshape fuel stdin)
             with Propagated e => is_Exception e = false | _ => True end).
  { clear. induction fuel as [|fuel IH]; intros stdin; [exact I|].
    cbn [interactive_loop].
    destruct stdin as [|[s|] rest]; [| |exact I].
    - specialize (IH []). now destruct (interactive_loop _ _ _ fuel []).
    - destruct (text_eqb _ _); [exact I|].
      specialize (IH rest).
      destruct (negb (truthy (PyStr s)));
        [now destruct (interactive_loop _ _ _ fuel rest)|].
      destruct (compare_default _ _ _ s) as [[r|e] lines];
        [now destruct (interactive_loop _ _ _ fuel rest)|].
      destruct (is_KeyboardInterrupt e); [exact I|].
      destruct (is_Exception e) eqn:E;
        [now destruct (interactive_loop _ _ _ fuel rest) | exact E]. }
  unfold main.
  destruct (arg_interactive args).
  - specialize (Hloop fuel stdin). now destruct (interactive_loop _ _ _ fuel stdin).
  - destruct (arg_file args) as [[|c path]|].
    1, 3: destruct (arg_text args) as [[|c s]|]; try exact I;
      destruct (compare_default _ _ _ (c :: s)) as [[r|e] lines] eqn:Hc;
      [exact I|]; cbn [fst];
      apply (comparison_contains_exceptions unicode_lower ext default_reshape
               (Some (c :: s)) en_ar e);
      change (fst (compare_default unicode_lower ext default_reshape (c :: s))
              = Raised e);
      now rewrite Hc.
    destruct (read_file (c :: path)) as [s|e].
    + destruct (compare_default _ _ _ s) as [[r|e] lines]; [exact I|].
      destruct (is_Exception e) eqn:E; [exact I | exact E].
    + destruct (is_Exception e) eqn:E; [exact I | exact E].
Qed.

End CommandLineFacts.

Lemma uninterrupted_ext_ok :
  uninterrupted ascii_only_lower ext_ok reshape_identity.
Proof.
  intros s e. unfold compare_default, print_arabic_shaping_comparison.
  destruct (negb (truthy (PyStr s)) || _); discriminate.
Defined.

Lemma interactive_loop_ignores_end_of_input_witness :
  fst (interactive_loop ascii_only_lower ext_ok reshape_identity 3
         [TypedLine salam]) = StillRunning
  /\ snd (interactive_loop ascii_only_lower ext_ok reshape_identity 3 [])
     = [Prompt; EndOfInputError; Prompt; EndOfInputError; Prompt; EndOfInputError].
Proof.
  apply (interactive_loop_ignores_end_of_input ascii_only_lower ext_ok
           reshape_identity 3 [TypedLine salam] uninterrupted_ext_ok).
  constructor; [reflexivity | constructor].
Defined.

Lemma interactive_loop_exits_witness :
  fst (interactive_loop ascii_only_lower ext_ok reshape_identity 2
         ([TypedLine salam] ++ TypedLine (text_of_string "EXIT")
                            :: [TypedLine salam]))
  = Finished.
Proof.
  apply (interactive_loop_exits ascii_only_lower ext_ok reshape_identity
           [TypedLine salam] [TypedLine salam]
           (TypedLine (text_of_string "EXIT")) 0 uninterrupted_ext_ok).
  - constructor; [reflexivity | constructor].
  - right. exists (text_of_string "EXIT"). split; reflexivity.
Defined.
